(** * Authentication service, session context and login form of as-app

    A shallow embedding of [src/services/auth.ts] (the Auth Actions and the
    Session Watcher) and of the React hook file that holds [AuthProvider],
    [useAuth] and [useLoginForm], together with the properties of the
    specification that concern them.

    Every [async] function of the source is a computation in the monad [M]
    below: it threads the state of the client (the log of calls made to the
    Firebase SDK, the console, the React state cells) and either returns a
    value or throws.  The SDK is an oracle [Backend]: what a call answers may
    depend on every call made before it.

    Unless said otherwise a function runs to completion before the next one
    starts; [Overlap] cuts the watcher's callback at its [await], where the
    event loop may run something else.  A state setter takes effect when it
    is called, and what the SDK rejects with is an error object. *)

From Stdlib Require Import String Ascii List Bool ZArith NArith Lia.
Import ListNotations.
Open Scope string_scope.

(** ** Data model ([src/types/index.ts]) *)

Module Types.

(** [Timestamp]; [serverTimestamp()] is the sentinel the source stores in a
    [Timestamp] field through [as any]. *)
Inductive Timestamp : Type :=
| Ts (seconds nanoseconds : Z)
| ServerTimestamp.

Inductive UserRole : Type := admin | user.
Inductive PlanType : Type := basic | premium | enterprise.

Record CompanySettings : Type := {
  monthly_usage_limit : Z;
  api_usage_limit : Z;
  max_users : Z;
  storage_limit_gb : Z
}.

Record Company : Type := {
  company_ident : string;
  company_name : string;
  plan : PlanType;
  company_created_at : Timestamp;
  company_updated_at : Timestamp;
  settings : CompanySettings
}.

Record User : Type := {
  id : string;
  email : string;
  name : string;
  company_id : string;
  role : UserRole;
  created_at : Timestamp;
  last_login : option Timestamp;
  is_active : bool
}.

(** [AuthUser extends User] with an optional token. *)
Record AuthUser : Type := {
  profile :> User;
  token : option string
}.

Record ApiError : Type := {
  code : string;
  message : string
}.

(** [ApiResponse<T>]: the three optional fields are absent when [None]. *)
Record ApiResponse (T : Type) : Type := {
  success : bool;
  data : option T;
  error : option ApiError;
  response_message : option string
}.
Arguments success {T} _.
Arguments data {T} _.
Arguments error {T} _.
Arguments response_message {T} _.

Record LoginForm : Type := {
  form_email : string;
  form_password : string
}.

(** [Partial<LoginForm>]: a key is present when its field is [Some]. *)
Record LoginFormErrors : Type := {
  email_error : option string;
  password_error : option string
}.

Definition role_eqb (a b : UserRole) : bool :=
  match a, b with
  | admin, admin | user, user => true
  | _, _ => false
  end.

End Types.
Import Types.

(** ** JavaScript values the code handles *)

Module Js.

(** What a [catch (error: any)] block reads of a thrown value: its [code]
    and [message] properties, [None] when undefined.  The SDK rejects with
    error objects, and [new Error(m)] has a message and no code. *)
Record Error : Type := {
  err_code : option string;
  err_message : option string
}.

Definition new_Error (m : string) : Error :=
  {| err_code := None; err_message := Some m |}.

(** [x || d] on a possibly undefined string: the empty string is falsy. *)
Definition or_else (x : option string) (d : string) : string :=
  match x with
  | Some s => if String.eqb s "" then d else s
  | None => d
  end.

(** [x === "lit"] on a possibly undefined string. *)
Definition strict_eq (x : option string) (lit : string) : bool :=
  match x with
  | Some s => String.eqb s lit
  | None => false
  end.

(** [!s] on a string. *)
Definition falsy (s : string) : bool := String.eqb s "".

(** [s.includes(sub)] *)
Fixpoint includes (sub s : string) : bool :=
  String.prefix sub s ||
  match s with
  | EmptyString => false
  | String _ s' => includes sub s'
  end.

End Js.

(** ** The Firebase boundary *)

Module Firebase.

Record FirebaseUser : Type := { uid : string }.
Record UserCredential : Type := { cred_user : FirebaseUser }.

(** The object given to [updateDoc] on a user document. *)
Inductive UserPatch : Type :=
| patch_last_login (last_login : Timestamp)
| patch_is_active (is_active : bool) (updated_at : Timestamp).

(** A call across the boundary, indexed by what it resolves to.  A document
    snapshot is [None] when [exists()] is false and [Some (data())]
    otherwise; [getDocs] resolves to the documents [forEach] visits, in
    order.  The last three are the functions a caller hands to this code:
    the watcher's callback, the form's [login] and [onSuccess]. *)
Inductive call : Type -> Type :=
| signInWithEmailAndPassword (email password : string) : call UserCredential
| createUserWithEmailAndPassword (email password : string) : call UserCredential
| signOut : call unit
| sendPasswordResetEmail (email : string) : call unit
| updateProfile (u : FirebaseUser) (displayName : string) : call unit
| getIdToken (u : FirebaseUser) : call string
| getDoc_users (ident : string) : call (option User)
| getDoc_companies (ident : string) : call (option Company)
| setDoc_users (ident : string) (doc : User) : call unit
| updateDoc_users (ident : string) (patch : UserPatch) : call unit
| getDocs_users_where_company_id (companyId : string) : call (list User)
| invoke_callback (u : option AuthUser) : call unit
| invoke_login (email password : string) : call (ApiResponse AuthUser)
| invoke_onSuccess : call unit.

Inductive Event : Type :=
| Ev {A : Type} (c : call A).

Inductive Outcome (A : Type) : Type :=
| Ok (a : A)
| Throw (e : Js.Error).
Arguments Ok {A} a.
Arguments Throw {A} e.

(** The answer to a call, given the calls made so far (oldest first). *)
Definition Backend : Type := forall A : Type, list Event -> call A -> Outcome A.

Definition is_updateDoc (e : Event) : bool :=
  match e with Ev (updateDoc_users _ _) => true | _ => false end.
Definition is_callback (e : Event) : bool :=
  match e with Ev (invoke_callback _) => true | _ => false end.
Definition is_login (e : Event) : bool :=
  match e with Ev (invoke_login _ _) => true | _ => false end.

Definition count (p : Event -> bool) (l : list Event) : nat :=
  length (filter p l).

End Firebase.
Import Firebase.

(** ** Client state and the monad of the source's [async] functions *)

(** The four state cells of [AuthProvider]. *)
Record AuthState : Type := {
  st_user : option AuthUser;
  st_company : option Company;
  st_loading : bool;
  st_error : option string
}.

(** The three state cells of [useLoginForm]. *)
Record FormState : Type := {
  values : LoginForm;
  errors : LoginFormErrors;
  isSubmitting : bool
}.

Record World : Type := {
  history : list Event;       (* calls made across the boundary, oldest first *)
  console : list string;      (* first argument of each console.error *)
  auth_state : AuthState;
  form_state : FormState
}.

Definition M (A : Type) : Type := World -> Outcome A * World.

Definition ret {A} (a : A) : M A := fun w => (Ok a, w).

Definition throw {A} (e : Js.Error) : M A := fun w => (Throw e, w).

Definition bind {A B} (m : M A) (k : A -> M B) : M B :=
  fun w =>
    match m w with
    | (Ok a, w') => k a w'
    | (Throw e, w') => (Throw e, w')
    end.

(** [try { body } catch (e) { handler }] *)
Definition try_catch {A} (body : M A) (handler : Js.Error -> M A) : M A :=
  fun w =>
    match body w with
    | (Ok a, w') => (Ok a, w')
    | (Throw e, w') => handler e w'
    end.

(** [try { body } finally { fin }]: [fin] runs on both exits and keeps the
    result of [body] unless it throws itself. *)
Definition try_finally {A} (body : M A) (fin : M unit) : M A :=
  fun w =>
    match body w with
    | (r, w') =>
        match fin w' with
        | (Ok _, w'') => (r, w'')
        | (Throw e, w'') => (Throw e, w'')
        end
    end.

Declare Scope js_scope.
Delimit Scope js_scope with js.
Notation "x <- m ;; k" := (bind m (fun x => k))
  (at level 61, m at next level, right associativity) : js_scope.
Notation "m ;; k" := (bind m (fun _ => k))
  (at level 61, right associativity) : js_scope.
Open Scope js_scope.

Definition set_history (h : list Event) (w : World) : World :=
  {| history := h; console := console w;
     auth_state := auth_state w; form_state := form_state w |}.
Definition set_console (c : list string) (w : World) : World :=
  {| history := history w; console := c;
     auth_state := auth_state w; form_state := form_state w |}.
Definition set_auth_state (s : AuthState) (w : World) : World :=
  {| history := history w; console := console w;
     auth_state := s; form_state := form_state w |}.
Definition set_form_state (f : FormState) (w : World) : World :=
  {| history := history w; console := console w;
     auth_state := auth_state w; form_state := f |}.

(** [console.error(label, ...)]: recorded, never throws. *)
Definition console_error (label : string) : M unit :=
  fun w => (Ok tt, set_console (console w ++ [label]) w).


(** A call across the boundary: the backend answers from the calls it has
    seen, and the call joins the history whether it resolves or rejects. *)
Definition perform (backend : Backend) {A} (c : call A) : M A :=
  fun w => (backend A (history w) c, set_history (history w ++ [Ev c]) w).

(** The functions a caller hands to this code are calls across the boundary
    too: they are recorded, and they return or throw as the caller's code
    decides. *)
Module Caller.

Definition callback (backend : Backend) (u : option AuthUser) : M unit :=
  perform backend (invoke_callback u).

Definition login (backend : Backend) (email password : string)
    : M (ApiResponse AuthUser) :=
  perform backend (invoke_login email password).

Definition onSuccess (backend : Backend) : M unit :=
  perform backend invoke_onSuccess.

End Caller.

(** ** The Auth Actions and the Session Watcher ([src/services/auth.ts]) *)

Module AuthService.

(** The first parameter of [createUser]. *)
Record NewUserData : Type := {
  new_email : string;
  new_password : string;
  new_name : string;
  new_company_id : string;
  new_role : UserRole
}.

Definition failure {T} (c m : string) : ApiResponse T :=
  {| success := false; data := None;
     error := Some {| code := c; message := m |};
     response_message := None |}.

Section WithBackend.

Variable backend : Backend.

(** The listener [onAuthStateChange callback] registers with
    [onAuthStateChanged]: what runs on one notification. *)
Definition onAuthStateChange (callback : option AuthUser -> M unit)
    (firebaseUser : option FirebaseUser) : M unit :=
  match firebaseUser with
  | Some fu =>
      try_catch
        (userDoc <- perform backend (getDoc_users (uid fu)) ;;
         match userDoc with
         | Some userData =>
             tok <- perform backend (getIdToken fu) ;;
             callback (Some {| profile := userData; token := Some tok |})
         | None =>
             perform backend signOut ;;
             callback None
         end)
        (fun _ =>
           console_error "Error fetching user data:" ;;
           callback None)
  | None => callback None
  end.

Definition loginUser (email password : string) : M (ApiResponse AuthUser) :=
  try_catch
    (userCredential <- perform backend (signInWithEmailAndPassword email password) ;;
     userDoc <- perform backend (getDoc_users (uid (cred_user userCredential))) ;;
     match userDoc with
     | None => throw (Js.new_Error "ユーザー情報が見つかりません")
     | Some userData =>
         (if negb (is_active userData)
          then perform backend signOut ;;
               throw (Js.new_Error "このアカウントは無効化されています")
          else ret tt) ;;
         perform backend (updateDoc_users (uid (cred_user userCredential))
                            (patch_last_login ServerTimestamp)) ;;
         tok <- perform backend (getIdToken (cred_user userCredential)) ;;
         ret {| success := true;
                data := Some {| profile := userData; token := Some tok |};
                error := None;
                response_message := Some "ログインに成功しました" |}
     end)
    (fun error =>
       console_error "Login error:" ;;
       let errorMessage :=
         if Js.strict_eq (Js.err_code error) "auth/user-not-found"
            || Js.strict_eq (Js.err_code error) "auth/wrong-password"
         then "メールアドレスまたはパスワードが正しくありません"
         else if Js.strict_eq (Js.err_code error) "auth/too-many-requests"
         then "ログイン試行回数が上限に達しました。しばらく時間をおいてお試しください"
         else if Js.strict_eq (Js.err_code error) "auth/user-disabled"
         then "このアカウントは無効化されています"
         else Js.or_else (Js.err_message error) "ログインに失敗しました" in
       ret (failure (Js.or_else (Js.err_code error) "login-failed") errorMessage)).

Definition createUser (userData : NewUserData) (currentUser : AuthUser)
    : M (ApiResponse User) :=
  try_catch
    ((if negb (role_eqb (role currentUser) admin)
      then throw (Js.new_Error "ユーザー作成権限がありません")
      else ret tt) ;;
     companyDoc <- perform backend (getDoc_companies (new_company_id userData)) ;;
     (match companyDoc with
      | None => throw (Js.new_Error "指定された会社が見つかりません")
      | Some _ => ret tt
      end) ;;
     userCredential <- perform backend
       (createUserWithEmailAndPassword (new_email userData) (new_password userData)) ;;
     perform backend (updateProfile (cred_user userCredential) (new_name userData)) ;;
     let newUser :=
       {| id := uid (cred_user userCredential);
          email := new_email userData;
          name := new_name userData;
          company_id := new_company_id userData;
          role := new_role userData;
          created_at := ServerTimestamp;
          last_login := None;
          is_active := true |} in
     perform backend (setDoc_users (uid (cred_user userCredential)) newUser) ;;
     ret {| success := true; data := Some newUser; error := None;
            response_message := Some "ユーザーを作成しました" |})
    (fun error =>
       console_error "User creation error:" ;;
       let errorMessage :=
         if Js.strict_eq (Js.err_code error) "auth/email-already-in-use"
         then "このメールアドレスは既に使用されています"
         else if Js.strict_eq (Js.err_code error) "auth/weak-password"
         then "パスワードが短すぎます（6文字以上）"
         else if Js.strict_eq (Js.err_code error) "auth/invalid-email"
         then "メールアドレスの形式が正しくありません"
         else Js.or_else (Js.err_message error) "ユーザー作成に失敗しました" in
       ret (failure (Js.or_else (Js.err_code error) "user-creation-failed")
              errorMessage)).

Definition logoutUser : M (ApiResponse unit) :=
  try_catch
    (perform backend signOut ;;
     ret {| success := true; data := None; error := None;
            response_message := Some "ログアウトしました" |})
    (fun _ =>
       console_error "Logout error:" ;;
       ret (failure "logout-failed" "ログアウトに失敗しました")).

Definition resetPassword (email : string) : M (ApiResponse unit) :=
  try_catch
    (perform backend (sendPasswordResetEmail email) ;;
     ret {| success := true; data := None; error := None;
            response_message := Some "パスワードリセットメールを送信しました" |})
    (fun error =>
       console_error "Password reset error:" ;;
       let errorMessage :=
         if Js.strict_eq (Js.err_code error) "auth/user-not-found"
         then "このメールアドレスのユーザーが見つかりません"
         else if Js.strict_eq (Js.err_code error) "auth/invalid-email"
         then "メールアドレスの形式が正しくありません"
         else Js.or_else (Js.err_message error) "パスワードリセットに失敗しました" in
       ret (failure (Js.or_else (Js.err_code error) "password-reset-failed")
              errorMessage)).

Definition getCompanyData (companyId : string) : M (ApiResponse Company) :=
  try_catch
    (companyDoc <- perform backend (getDoc_companies companyId) ;;
     match companyDoc with
     | None => throw (Js.new_Error "会社情報が見つかりません")
     | Some companyData =>
         ret {| success := true; data := Some companyData; error := None;
                response_message := None |}
     end)
    (fun error =>
       console_error "Company data fetch error:" ;;
       ret (failure "company-fetch-failed"
              (Js.or_else (Js.err_message error) "会社情報の取得に失敗しました"))).

Definition getCompanyUsers (companyId : string) (currentUser : AuthUser)
    : M (ApiResponse (list User)) :=
  try_catch
    ((if negb (String.eqb (company_id currentUser) companyId)
      then throw (Js.new_Error "この会社のユーザー一覧を見る権限がありません")
      else ret tt) ;;
     querySnapshot <- perform backend (getDocs_users_where_company_id companyId) ;;
     let users := fold_left (fun users doc => (users ++ [doc])%list) querySnapshot [] in
     ret {| success := true; data := Some users; error := None;
            response_message := None |})
    (fun error =>
       console_error "Company users fetch error:" ;;
       ret (failure "users-fetch-failed"
              (Js.or_else (Js.err_message error) "ユーザー一覧の取得に失敗しました"))).

Definition toggleUserStatus (userId : string) (isActive : bool)
    (currentUser : AuthUser) : M (ApiResponse unit) :=
  try_catch
    ((if negb (role_eqb (role currentUser) admin)
      then throw (Js.new_Error "ユーザー状態変更権限がありません")
      else ret tt) ;;
     userDoc <- perform backend (getDoc_users userId) ;;
     match userDoc with
     | None => throw (Js.new_Error "ユーザーが見つかりません")
     | Some userData =>
         (if negb (String.eqb (company_id userData) (company_id currentUser))
          then throw (Js.new_Error "異なる会社のユーザーは変更できません")
          else ret tt) ;;
         (if String.eqb userId (id currentUser)
          then throw (Js.new_Error "自分自身のアカウントは無効化できません")
          else ret tt) ;;
         perform backend (updateDoc_users userId
                            (patch_is_active isActive ServerTimestamp)) ;;
         ret {| success := true; data := None; error := None;
                response_message :=
                  Some ("ユーザーを" ++ (if isActive then "有効" else "無効")
                          ++ "にしました") |}
     end)
    (fun error =>
       console_error "User status toggle error:" ;;
       ret (failure "status-toggle-failed"
              (Js.or_else (Js.err_message error) "ユーザー状態の変更に失敗しました"))).

End WithBackend.

End AuthService.

(** ** The Session Context ([AuthProvider] in the hook file) *)

Module AuthProvider.

Import AuthService.

(** [useState] initial values. *)
Definition initial_state : AuthState :=
  {| st_user := None; st_company := None; st_loading := true; st_error := None |}.

Definition setUser (u : option AuthUser) : M unit :=
  fun w =>
    let s := auth_state w in
    (Ok tt, set_auth_state
              {| st_user := u; st_company := st_company s;
                 st_loading := st_loading s; st_error := st_error s |} w).

Definition setCompany (c : option Company) : M unit :=
  fun w =>
    let s := auth_state w in
    (Ok tt, set_auth_state
              {| st_user := st_user s; st_company := c;
                 st_loading := st_loading s; st_error := st_error s |} w).

Definition setLoading (b : bool) : M unit :=
  fun w =>
    let s := auth_state w in
    (Ok tt, set_auth_state
              {| st_user := st_user s; st_company := st_company s;
                 st_loading := b; st_error := st_error s |} w).

Definition setError (e : option string) : M unit :=
  fun w =>
    let s := auth_state w in
    (Ok tt, set_auth_state
              {| st_user := st_user s; st_company := st_company s;
                 st_loading := st_loading s; st_error := e |} w).

Section WithBackend.

Variable backend : Backend.

(** The callback [useEffect] hands to [onAuthStateChange]. *)
Definition authStateCallback (authUser : option AuthUser) : M unit :=
  try_finally
    (try_catch
       (match authUser with
        | Some u =>
            setUser (Some u) ;;
            companyResult <- getCompanyData backend (company_id u) ;;
            match success companyResult, data companyResult with
            | true, Some d => setCompany (Some d)
            | _, _ =>
                console_error "Company data fetch failed:" ;;
                setError (Some "会社情報の取得に失敗しました")
            end
        | None =>
            setUser None ;;
            setCompany None
        end)
       (fun _ =>
          console_error "Auth state change error:" ;;
          setError (Some "認証状態の確認に失敗しました")))
    (setLoading false).

Definition login (email password : string) : M (ApiResponse AuthUser) :=
  setLoading true ;;
  setError None ;;
  try_finally
    (try_catch
       (result <- loginUser backend email password ;;
        (if negb (success result)
         then setError
                (Some (Js.or_else (option_map message (error result))
                         "ログインに失敗しました"))
         else ret tt) ;;
        ret result)
       (fun _ =>
          let errorMessage := "ログイン処理でエラーが発生しました" in
          setError (Some errorMessage) ;;
          ret (failure "login-error" errorMessage)))
    (setLoading false).

Definition logout : M unit :=
  setLoading true ;;
  setError None ;;
  try_finally
    (try_catch
       (logoutUser backend ;;
        setUser None ;;
        setCompany None)
       (fun _ =>
          console_error "Logout error:" ;;
          setError (Some "ログアウトに失敗しました")))
    (setLoading false).

Definition sendPasswordReset (email : string) : M (ApiResponse unit) :=
  setError None ;;
  try_catch
    (result <- resetPassword backend email ;;
     (if negb (success result)
      then setError
             (Some (Js.or_else (option_map message (error result))
                      "パスワードリセットに失敗しました"))
      else ret tt) ;;
     ret result)
    (fun _ =>
       let errorMessage := "パスワードリセット処理でエラーが発生しました" in
       setError (Some errorMessage) ;;
       ret (failure "password-reset-error" errorMessage)).

End WithBackend.

Definition clearError : M unit := setError None.

Definition isAuthenticated (s : AuthState) : bool :=
  match st_user s with Some _ => true | None => false end.

Definition isAdmin (s : AuthState) : bool :=
  match st_user s with Some u => role_eqb (role u) admin | None => false end.

End AuthProvider.

(** ** The Login Form Controller ([useLoginForm]) *)

Module Regex.

(** Regular expressions over character classes, matched by derivatives;
    [test] is [RegExp.prototype.test] for a pattern anchored by [^] and [$]. *)
Inductive regex : Type :=
| Never
| Empty
| Class (p : ascii -> bool)
| Seq (r s : regex)
| Alt (r s : regex)
| Star (r : regex).

Definition Plus (r : regex) : regex := Seq r (Star r).

Fixpoint nullable (r : regex) : bool :=
  match r with
  | Never => false
  | Empty => true
  | Class _ => false
  | Seq r s => nullable r && nullable s
  | Alt r s => nullable r || nullable s
  | Star _ => true
  end.

Fixpoint deriv (c : ascii) (r : regex) : regex :=
  match r with
  | Never => Never
  | Empty => Never
  | Class p => if p c then Empty else Never
  | Seq r s =>
      if nullable r then Alt (Seq (deriv c r) s) (deriv c s)
      else Seq (deriv c r) s
  | Alt r s => Alt (deriv c r) (deriv c s)
  | Star r => Seq (deriv c r) (Star r)
  end.

Fixpoint test (r : regex) (s : string) : bool :=
  match s with
  | EmptyString => nullable r
  | String c s' => test (deriv c r) s'
  end.

(** [\s] on a code unit below 256: tab, line feed, vertical tab, form feed,
    carriage return, space and no-break space. *)
Definition is_space (c : ascii) : bool :=
  let n := nat_of_ascii c in
  ((9 <=? n)%nat && (n <=? 13)%nat) || (n =? 32)%nat || (n =? 160)%nat.

(** [[^\s@]] *)
Definition not_space_at (c : ascii) : bool :=
  negb (is_space c) && negb (Ascii.eqb c "@"%char).

(** [/^[^\s@]+@[^\s@]+\.[^\s@]+$/] *)
Definition email_pattern : regex :=
  Seq (Plus (Class not_space_at))
    (Seq (Class (Ascii.eqb "@"%char))
       (Seq (Plus (Class not_space_at))
          (Seq (Class (Ascii.eqb "."%char))
             (Plus (Class not_space_at))))).

End Regex.

Module LoginFormController.

(** [useState] initial values. *)
Definition initial_form : FormState :=
  {| values := {| form_email := ""; form_password := "" |};
     errors := {| email_error := None; password_error := None |};
     isSubmitting := false |}.

Definition setErrors (e : LoginFormErrors) : M unit :=
  fun w =>
    let f := form_state w in
    (Ok tt, set_form_state
              {| values := values f; errors := e;
                 isSubmitting := isSubmitting f |} w).

Definition setIsSubmitting (b : bool) : M unit :=
  fun w =>
    let f := form_state w in
    (Ok tt, set_form_state
              {| values := values f; errors := errors f;
                 isSubmitting := b |} w).

(** The object [validateForm] builds before [setErrors].  A character of a
    field stands for one UTF-16 code unit, below 256, so [length] is
    [String.length]; [CodeUnits] below has the validation for every
    string. *)
Definition newErrors (v : LoginForm) : LoginFormErrors :=
  {| email_error :=
       if Js.falsy (form_email v)
       then Some "メールアドレスは必須です"
       else if negb (Regex.test Regex.email_pattern (form_email v))
       then Some "メールアドレスの形式が正しくありません"
       else None;
     password_error :=
       if Js.falsy (form_password v)
       then Some "パスワードは必須です"
       else if (String.length (form_password v) <? 6)%nat
       then Some "パスワードは6文字以上で入力してください"
       else None |}.

(** [Object.keys(e).length === 0] *)
Definition no_keys (e : LoginFormErrors) : bool :=
  match email_error e, password_error e with
  | None, None => true
  | _, _ => false
  end.

Definition validateForm : M bool :=
  fun w =>
    let e := newErrors (values (form_state w)) in
    (setErrors e ;; ret (no_keys e)) w.

Section WithLogin.

(** [login] comes from [useAuth()], [onSuccess] from the caller. *)
Variable login : string -> string -> M (ApiResponse AuthUser).
Variable onSuccess : option (M unit).

Definition handleSubmit : M unit :=
  valid <- validateForm ;;
  if negb valid then ret tt
  else
    setIsSubmitting true ;;
    try_finally
      (try_catch
         (fun w =>
            (result <- login (form_email (values (form_state w)))
                         (form_password (values (form_state w))) ;;
             if success result
             then match onSuccess with Some f => f | None => ret tt end
             else ret tt) w)
         (fun _ => console_error "Login form submission error:"))
      (setIsSubmitting false).

End WithLogin.

(** The form after the user typed [email] and [password] ([setValues]). *)
Definition fill (email password : string) (w : World) : World :=
  set_form_state
    {| values := {| form_email := email; form_password := password |};
       errors := errors (form_state w);
       isSubmitting := isSubmitting (form_state w) |} w.

(** [handleSubmit(onSuccess)], or [handleSubmit()] when [withOnSuccess] is
    false, with [login] and [onSuccess] supplied by the caller. *)
Definition submit (backend : Backend) (withOnSuccess : bool) : M unit :=
  handleSubmit (Caller.login backend)
    (if withOnSuccess then Some (Caller.onSuccess backend) else None).

End LoginFormController.

(** ** The Session Context as a transition system *)

Module Session.

Import AuthService AuthProvider.

(** What can happen to an attached [AuthProvider]: the watcher hands it a
    session user or absent, or a consumer calls one of the functions of the
    context value.  [exec] runs these one after the other, each to
    completion; [Overlap] below has the callback cut at its [await]. *)
Inductive Op : Type :=
| Notify (authUser : option AuthUser)
| Login (email password : string)
| Logout
| SendPasswordReset (email : string)
| ClearError.

Definition run_op (backend : Backend) (o : Op) : M unit :=
  match o with
  | Notify authUser => authStateCallback backend authUser
  | Login email password => login backend email password ;; ret tt
  | Logout => logout backend
  | SendPasswordReset email => sendPasswordReset backend email ;; ret tt
  | ClearError => clearError
  end.

(** Whether the tenant fetch that a notification of [u] makes from [w]
    succeeds: the [success] of the envelope [getCompanyData] returns at the
    point where [authStateCallback] calls it. *)
Definition tenant_fetch_succeeds (backend : Backend) (u : AuthUser) (w : World)
    : bool :=
  match fst (getCompanyData backend (company_id u) (snd (setUser (Some u) w))) with
  | Ok r => success r
  | Throw _ => false
  end.

(** The outcome of the most recent tenant fetch of the current session:
    [None] while there is no session. *)
Definition track (backend : Backend) (o : Op) (w : World) (fetched : option bool)
    : option bool :=
  match o with
  | Notify (Some u) => Some (tenant_fetch_succeeds backend u w)
  | Notify None => None
  | Logout => None
  | _ => fetched
  end.

Fixpoint exec (backend : Backend) (ops : list Op) (s : World * option bool)
    : World * option bool :=
  match ops with
  | [] => s
  | o :: rest =>
      exec backend rest
        (snd (run_op backend o (fst s)), track backend o (fst s) (snd s))
  end.

(** The state on attach: the [useState] initial values. *)
Definition attach (w : World) : World * option bool :=
  (set_auth_state initial_state w, None).

Definition user_of (s : World * option bool) : option AuthUser :=
  st_user (auth_state (fst s)).
Definition company_of (s : World * option bool) : option Company :=
  st_company (auth_state (fst s)).
Definition error_of (s : World * option bool) : option string :=
  st_error (auth_state (fst s)).

(** [company] is populated exactly when a session exists and its most recent
    tenant fetch succeeded. *)
Definition company_iff_fetched (s : World * option bool) : Prop :=
  company_of s <> None <-> (user_of s <> None /\ snd s = Some true).

(** The invariant of the reachable states: [company] needs a [user], a
    successful fetch leaves a [company], and a fetch outcome is on record
    exactly while there is a [user]. *)
Definition consistent (s : World * option bool) : Prop :=
  (company_of s <> None -> user_of s <> None) /\
  (snd s = Some true -> company_of s <> None) /\
  (snd s = None <-> user_of s = None).

End Session.

(** ** Predicates of the specification *)

Local Open Scope list_scope.

(** [success] excludes [error], failure excludes [data]. *)
Definition well_formed {T} (r : ApiResponse T) : Prop :=
  (success r = true -> error r = None) /\ (success r = false -> data r = None).

(** The action returns (it does not throw) and its envelope is well formed,
    from every state of the client. *)
Definition returns_well_formed {T} (action : M (ApiResponse T)) : Prop :=
  forall w, exists r, fst (action w) = Ok r /\ well_formed r.

(** The envelope reports an authorization failure: its message has the
    phrase every permission error of the service carries. *)
Definition denies_authorization {T} (r : ApiResponse T) : Prop :=
  success r = false /\
  exists e, error r = Some e /\ Js.includes "権限がありません" (message e) = true.

(** What the watcher owes its subscriber on one notification of a principal:
    it returns, and the callback is the last call it makes and the only
    callback; an orphaned credential is signed out first and the subscriber
    told absent, and a failed directory fetch tells the subscriber absent. *)
Definition watcher_contract (backend : Backend) (fu : FirebaseUser) (w : World)
    : Prop :=
  let run := AuthService.onAuthStateChange backend (Caller.callback backend)
               (Some fu) w in
  let fetch := getDoc_users (uid fu) in
  fst run = Ok tt /\
  exists calls last,
    history (snd run) = history w ++ calls ++ [Ev (invoke_callback last)] /\
    count is_callback (calls ++ [Ev (invoke_callback last)]) = 1 /\
    (backend _ (history w) fetch = Ok None ->
     calls = [Ev fetch; Ev signOut] /\ last = None) /\
    (forall e, backend _ (history w) fetch = Throw e ->
     calls = [Ev fetch] /\ last = None).

(** ** Sample data and backends *)

Module Sample.

Definition alice : User :=
  {| id := "u-alice"; email := "alice@example.com"; name := "Alice";
     company_id := "acme"; role := user; created_at := Ts 1640995200 0;
     last_login := None; is_active := true |}.

Definition alice_inactive : User :=
  {| id := "u-alice"; email := "alice@example.com"; name := "Alice";
     company_id := "acme"; role := user; created_at := Ts 1640995200 0;
     last_login := None; is_active := false |}.

Definition alice_principal : FirebaseUser := {| uid := "u-alice" |}.

Definition alice_session : AuthUser :=
  {| profile := alice; token := Some "token-1" |}.

Definition bob_session : AuthUser :=
  {| profile :=
       {| id := "u-bob"; email := "bob@example.org"; name := "Bob";
          company_id := "globex"; role := admin; created_at := Ts 1640995200 0;
          last_login := None; is_active := true |};
     token := Some "token-2" |}.

Definition acme : Company :=
  {| company_ident := "acme"; company_name := "Acme Care"; plan := premium;
     company_created_at := Ts 1640995200 0;
     company_updated_at := Ts 1640995200 0;
     settings := {| monthly_usage_limit := 50; api_usage_limit := 300;
                    max_users := 10; storage_limit_gb := 5 |} |}.

Definition unavailable : Js.Error :=
  {| Js.err_code := Some "unavailable";
     Js.err_message := Some "The service is currently unavailable." |}.

Definition empty_world : World :=
  {| history := []; console := [];
     auth_state := AuthProvider.initial_state;
     form_state := LoginFormController.initial_form |}.

(** Nothing answers. *)
Definition offline : Backend := fun A _ _ => Throw unavailable.

(** Sign-in succeeds, the record is inactive, sign-out succeeds. *)
Definition inactive_account : Backend :=
  fun A _ c =>
    match c in call A return Outcome A with
    | signInWithEmailAndPassword _ _ => Ok {| cred_user := alice_principal |}
    | getDoc_users _ => Ok (Some alice_inactive)
    | signOut => Ok tt
    | _ => Throw unavailable
    end.

(** Sign-in succeeds, the record is active, the directory refuses writes. *)
Definition read_only_directory : Backend :=
  fun A _ c =>
    match c in call A return Outcome A with
    | signInWithEmailAndPassword _ _ => Ok {| cred_user := alice_principal |}
    | getDoc_users _ => Ok (Some alice)
    | getIdToken _ => Ok "token-1"
    | signOut => Ok tt
    | _ => Throw unavailable
    end.

(** Everything succeeds. *)
Definition healthy : Backend :=
  fun A _ c =>
    match c in call A return Outcome A with
    | signInWithEmailAndPassword _ _ => Ok {| cred_user := alice_principal |}
    | createUserWithEmailAndPassword _ _ => Ok {| cred_user := {| uid := "u-new" |} |}
    | signOut => Ok tt
    | sendPasswordResetEmail _ => Ok tt
    | updateProfile _ _ => Ok tt
    | getIdToken _ => Ok "token-1"
    | getDoc_users _ => Ok (Some alice)
    | getDoc_companies _ => Ok (Some acme)
    | setDoc_users _ _ => Ok tt
    | updateDoc_users _ _ => Ok tt
    | getDocs_users_where_company_id _ => Ok [alice]
    | invoke_callback _ => Ok tt
    | invoke_login _ _ =>
        Ok {| success := true; data := Some alice_session; error := None;
              response_message := None |}
    | invoke_onSuccess => Ok tt
    end.

(** The principal has no record in the directory; the callback returns. *)
Definition orphaned_credential : Backend :=
  fun A _ c =>
    match c in call A return Outcome A with
    | getDoc_users _ => Ok None
    | signOut => Ok tt
    | invoke_callback _ => Ok tt
    | _ => Throw unavailable
    end.

(** The record is found, and the callback throws when given a session user. *)
Definition throwing_callback : Backend :=
  fun A _ c =>
    match c in call A return Outcome A with
    | getDoc_users _ => Ok (Some alice)
    | getIdToken _ => Ok "token-1"
    | invoke_callback (Some _) => Throw (Js.new_Error "callback failed")
    | invoke_callback None => Ok tt
    | _ => Throw unavailable
    end.

Definition is_getDoc_companies (e : Event) : bool :=
  match e with Ev (getDoc_companies _) => true | _ => false end.

(** The first tenant fetch succeeds, every later one fails. *)
Definition tenant_fetch_once : Backend :=
  fun A h c =>
    match c in call A return Outcome A with
    | getDoc_companies _ =>
        if existsb is_getDoc_companies h then Throw unavailable
        else Ok (Some acme)
    | _ => Throw unavailable
    end.

End Sample.

(** ** The rest of the service, the gate and the form's input handler *)

Module CurrentUser.

Section WithBackend.

Variable backend : Backend.

(** [auth.currentUser] at the time of the call. *)
Variable currentUser : option FirebaseUser.

Definition getCurrentUser : option FirebaseUser := currentUser.

Definition getCurrentUserToken : M (option string) :=
  match getCurrentUser with
  | None => ret None
  | Some u =>
      try_catch
        (tok <- perform backend (getIdToken u) ;; ret (Some tok))
        (fun _ => console_error "Token fetch error:" ;; ret None)
  end.

End WithBackend.

End CurrentUser.

Module Gate.

Import AuthProvider.

(** What [RequireAuth] returns. *)
Inductive Rendered : Type :=
| loading_placeholder
| fallback
| admin_required
| children.

(** [useAuth()]: the context value, or the error thrown outside a provider. *)
Definition useAuth (context : option AuthState) : Outcome AuthState :=
  match context with
  | None => Throw (Js.new_Error "useAuth must be used within an AuthProvider")
  | Some value => Ok value
  end.

Definition RequireAuth (requireAdmin : bool) (context : option AuthState)
    : Outcome Rendered :=
  match useAuth context with
  | Throw e => Throw e
  | Ok value =>
      Ok (if st_loading value then loading_placeholder
          else if negb (isAuthenticated value) then fallback
          else if requireAdmin && negb (isAdmin value) then admin_required
          else children)
  end.

End Gate.

Module FormInput.

Import LoginFormController.

(** [keyof LoginForm] *)
Inductive Field : Type := field_email | field_password.

Definition setValues (f : LoginForm -> LoginForm) : M unit :=
  fun w =>
    let s := form_state w in
    (Ok tt, set_form_state
              {| values := f (values s); errors := errors s;
                 isSubmitting := isSubmitting s |} w).

(** [{ ...prev, [field]: value }] *)
Definition with_value (field : Field) (value : string) (prev : LoginForm)
    : LoginForm :=
  match field with
  | field_email => {| form_email := value; form_password := form_password prev |}
  | field_password => {| form_email := form_email prev; form_password := value |}
  end.

(** [errors[field]] *)
Definition error_at (field : Field) (e : LoginFormErrors) : option string :=
  match field with
  | field_email => email_error e
  | field_password => password_error e
  end.

(** [{ ...prev, [field]: undefined }]: reading the field afterwards gives
    undefined. *)
Definition without_error (field : Field) (prev : LoginFormErrors)
    : LoginFormErrors :=
  match field with
  | field_email => {| email_error := None; password_error := password_error prev |}
  | field_password => {| email_error := email_error prev; password_error := None |}
  end.

(** Truthiness of a possibly undefined string. *)
Definition truthy (x : option string) : bool :=
  match x with
  | Some s => negb (Js.falsy s)
  | None => false
  end.

Definition handleChange (field : Field) (value : string) : M unit :=
  fun w =>
    (setValues (with_value field value) ;;
     if truthy (error_at field (errors (form_state w)))
     then (fun w' =>
             setErrors (without_error field (errors (form_state w'))) w')
     else ret tt) w.

End FormInput.

(** The watcher over the notifications the SDK delivers, in order: each
    listener call runs whatever became of the one before. *)
Fixpoint deliver (backend : Backend) (callback : option AuthUser -> M unit)
    (notifications : list (option FirebaseUser)) (w : World) : World :=
  match notifications with
  | [] => w
  | n :: rest =>
      deliver backend callback rest
        (snd (AuthService.onAuthStateChange backend callback n w))
  end.

(** Further backends and users for concrete runs. *)
Module Scenario.

Definition dana_session : AuthUser :=
  {| profile :=
       {| id := "u-dana"; email := "dana@example.com"; name := "Dana";
          company_id := "acme"; role := admin; created_at := Ts 1640995200 0;
          last_login := None; is_active := true |};
     token := Some "token-3" |}.

Definition carol_request : AuthService.NewUserData :=
  {| AuthService.new_email := "carol@example.com";
     AuthService.new_password := "password123";
     AuthService.new_name := "Carol";
     AuthService.new_company_id := "acme";
     AuthService.new_role := user |}.

(** The credential signs in, and the directory holds neither its record nor
    any tenant. *)
Definition unregistered : Backend :=
  fun A _ c =>
    match c in call A return Outcome A with
    | signInWithEmailAndPassword _ _ =>
        Ok {| cred_user := Sample.alice_principal |}
    | getDoc_users _ => Ok None
    | getDoc_companies _ => Ok None
    | _ => Throw Sample.unavailable
    end.

(** Credentials can be created, and the directory refuses every write. *)
Definition write_refused : Backend :=
  fun A _ c =>
    match c in call A return Outcome A with
    | getDoc_companies _ => Ok (Some Sample.acme)
    | createUserWithEmailAndPassword _ _ =>
        Ok {| cred_user := {| uid := "u-carol" |} |}
    | updateProfile _ _ => Ok tt
    | _ => Throw Sample.unavailable
    end.

End Scenario.

(** ** The watcher's callback around its [await] *)

(** [onAuthStateChange] calls the callback without awaiting it, and the
    callback suspends at [await getCompanyData(...)]: what follows the
    [await] runs when the fetch has answered, after whatever the event loop
    ran in between.  [Session.exec] above is the schedule in which nothing
    runs in between. *)
Module Overlap.

Import AuthService AuthProvider.

Section WithBackend.

Variable backend : Backend.

(** The callback for a session user, up to the [await]. *)
Definition callback_until_await (u : AuthUser) : M (ApiResponse Company) :=
  setUser (Some u) ;;
  getCompanyData backend (company_id u).

(** The callback from the [await] on, resumed with the result of the fetch. *)
Definition callback_after_await (companyResult : ApiResponse Company) : M unit :=
  try_finally
    (try_catch
       (match success companyResult, data companyResult with
        | true, Some d => setCompany (Some d)
        | _, _ =>
            console_error "Company data fetch failed:" ;;
            setError (Some "会社情報の取得に失敗しました")
        end)
       (fun _ =>
          console_error "Auth state change error:" ;;
          setError (Some "認証状態の確認に失敗しました")))
    (setLoading false).

End WithBackend.

End Overlap.

(** ** The form's validation over UTF-16 code units *)

(** A JavaScript string is a sequence of UTF-16 code units: [length] counts
    them and a regular expression without the [u] flag matches them one by
    one.  [LoginFormController] reads each character of a Rocq string as one
    code unit, which covers the code units below 256; this module has the
    validation of [validateForm] for every string. *)
Module CodeUnits.

Definition code_unit : Type := N.
Definition JsString : Type := list code_unit.

(** A Rocq string read one character per code unit. *)
Definition units (s : string) : JsString :=
  map N_of_ascii (list_ascii_of_string s).

Inductive regex : Type :=
| Never
| Empty
| Class (p : code_unit -> bool)
| Seq (r s : regex)
| Alt (r s : regex)
| Star (r : regex).

Definition Plus (r : regex) : regex := Seq r (Star r).

Fixpoint nullable (r : regex) : bool :=
  match r with
  | Never => false
  | Empty => true
  | Class _ => false
  | Seq r s => nullable r && nullable s
  | Alt r s => nullable r || nullable s
  | Star _ => true
  end.

Fixpoint deriv (c : code_unit) (r : regex) : regex :=
  match r with
  | Never => Never
  | Empty => Never
  | Class p => if p c then Empty else Never
  | Seq r s =>
      if nullable r then Alt (Seq (deriv c r) s) (deriv c s)
      else Seq (deriv c r) s
  | Alt r s => Alt (deriv c r) (deriv c s)
  | Star r => Seq (deriv c r) (Star r)
  end.

(** [RegExp.prototype.test] for a pattern anchored by [^] and [$]. *)
Fixpoint test (r : regex) (s : JsString) : bool :=
  match s with
  | [] => nullable r
  | c :: s' => test (deriv c r) s'
  end.

(** [\s]: the white space and line terminator code units of ECMAScript
    (TAB, LF, VT, FF, CR, SP, NBSP, U+1680, U+2000 to U+200A, U+2028,
    U+2029, U+202F, U+205F, U+3000, U+FEFF). *)
Definition is_space (c : code_unit) : bool :=
  ((9 <=? c) && (c <=? 13)
   || (c =? 32) || (c =? 160) || (c =? 0x1680)
   || ((0x2000 <=? c) && (c <=? 0x200A))
   || (c =? 0x2028) || (c =? 0x2029) || (c =? 0x202F) || (c =? 0x205F)
   || (c =? 0x3000) || (c =? 0xFEFF))%N.

Definition at_sign : code_unit := 64%N.
Definition full_stop : code_unit := 46%N.

(** [[^\s@]] *)
Definition not_space_at (c : code_unit) : bool :=
  negb (is_space c) && negb (c =? at_sign)%N.

(** [/^[^\s@]+@[^\s@]+\.[^\s@]+$/] *)
Definition email_pattern : regex :=
  Seq (Plus (Class not_space_at))
    (Seq (Class (N.eqb at_sign))
       (Seq (Plus (Class not_space_at))
          (Seq (Class (N.eqb full_stop))
             (Plus (Class not_space_at))))).

(** [!s] on a string. *)
Definition falsy (s : JsString) : bool :=
  match s with [] => true | _ :: _ => false end.

(** The object [validateForm] builds before [setErrors]. *)
Definition newErrors (email password : JsString) : LoginFormErrors :=
  {| email_error :=
       if falsy email
       then Some "メールアドレスは必須です"
       else if negb (test email_pattern email)
       then Some "メールアドレスの形式が正しくありません"
       else None;
     password_error :=
       if falsy password
       then Some "パスワードは必須です"
       else if (length password <? 6)%nat
       then Some "パスワードは6文字以上で入力してください"
       else None |}.

(** [validateForm] with [values] holding [email] and [password]: the errors
    it hands to [setErrors] and the boolean it returns. *)
Definition validateForm (email password : JsString) : LoginFormErrors * bool :=
  let e := newErrors email password in
  (e, LoginFormController.no_keys e).

(** The strings a regular expression denotes. *)
Inductive matches : regex -> JsString -> Prop :=
| matches_empty : matches Empty []
| matches_class p c : p c = true -> matches (Class p) [c]
| matches_seq r s x y :
    matches r x -> matches s y -> matches (Seq r s) (x ++ y)
| matches_alt_l r s x : matches r x -> matches (Alt r s) x
| matches_alt_r r s x : matches s x -> matches (Alt r s) x
| matches_star_nil r : matches (Star r) []
| matches_star_cons r x y :
    matches r x -> matches (Star r) y -> matches (Star r) (x ++ y).

(** A non-empty run of code units that are neither white space nor [@]. *)
Definition word (s : JsString) : Prop :=
  s <> [] /\ forallb not_space_at s = true.

(** The expressions of [LoginFormController] and of this module that have
    the same shape and the same classes on the code units below 256. *)
Inductive same_regex : Regex.regex -> regex -> Prop :=
| same_never : same_regex Regex.Never Never
| same_empty : same_regex Regex.Empty Empty
| same_class p q :
    (forall c, p c = q (N_of_ascii c)) -> same_regex (Regex.Class p) (Class q)
| same_seq r1 r2 s1 s2 :
    same_regex r1 s1 -> same_regex r2 s2 ->
    same_regex (Regex.Seq r1 r2) (Seq s1 s2)
| same_alt r1 r2 s1 s2 :
    same_regex r1 s1 -> same_regex r2 s2 ->
    same_regex (Regex.Alt r1 r2) (Alt s1 s2)
| same_star r s : same_regex r s -> same_regex (Regex.Star r) (Star s).

End CodeUnits.

(** * Properties *)

Import AuthService.

(** Unfolding of the monad, and case analysis on what the backend answers. *)
Ltac unfold_monad :=
  unfold try_finally, try_catch, bind, perform, throw, ret, console_error in *.

Ltac backend_cases :=
  repeat (cbn;
          match goal with
          | |- context [match ?b ?A ?h ?c with Ok _ => _ | Throw _ => _ end] =>
              destruct (b A h c)
          | |- context [match ?x with Some _ => _ | None => _ end] =>
              is_var x; destruct x
          | |- context [if negb ?b then _ else _] =>
              destruct b eqn:?
          end).

(** ** The envelope invariant *)

Section Envelope.

Lemma failure_well_formed T (c m : string) : well_formed (@failure T c m).
Proof. split; cbn; [discriminate | reflexivity]. Qed.

Lemma success_well_formed T (d : option T) (m : option string) :
  well_formed {| success := true; data := d; error := None; response_message := m |}.
Proof. split; cbn; [reflexivity | discriminate]. Qed.

Create HintDb envelope.
Hint Resolve failure_well_formed success_well_formed : envelope.

Ltac envelope_cases :=
  intros w; unfold_monad; backend_cases;
  eexists; (split; [reflexivity | auto with envelope]).

Variable backend : Backend.

Lemma loginUser_well_formed email password :
  returns_well_formed (loginUser backend email password).
Proof. unfold loginUser. envelope_cases. Qed.

Lemma createUser_well_formed userData currentUser :
  returns_well_formed (createUser backend userData currentUser).
Proof. unfold createUser. envelope_cases. Qed.

Lemma logoutUser_well_formed : returns_well_formed (logoutUser backend).
Proof. unfold logoutUser. envelope_cases. Qed.

Lemma resetPassword_well_formed email :
  returns_well_formed (resetPassword backend email).
Proof. unfold resetPassword. envelope_cases. Qed.

Lemma getCompanyData_well_formed companyId :
  returns_well_formed (getCompanyData backend companyId).
Proof. unfold getCompanyData. envelope_cases. Qed.

Lemma getCompanyUsers_well_formed companyId currentUser :
  returns_well_formed (getCompanyUsers backend companyId currentUser).
Proof. unfold getCompanyUsers. envelope_cases. Qed.

Lemma toggleUserStatus_well_formed userId isActive currentUser :
  returns_well_formed (toggleUserStatus backend userId isActive currentUser).
Proof.
  unfold toggleUserStatus. intros w; unfold_monad; backend_cases;
    try (destruct (String.eqb userId (id currentUser)); backend_cases);
    eexists; (split; [reflexivity | auto with envelope]).
Qed.

End Envelope.

(** C1.  Every Auth Action ([loginUser], [createUser], [logoutUser],
    [resetPassword], [getCompanyData], [getCompanyUsers], [toggleUserStatus]),
    on every input, against every backend and from every client state,
    returns an envelope in which [success = true] leaves [error] absent and
    [success = false] leaves [data] absent. *)
Theorem auth_actions_envelope_well_formed (backend : Backend) :
  (forall email password,
      returns_well_formed (loginUser backend email password)) /\
  (forall userData currentUser,
      returns_well_formed (createUser backend userData currentUser)) /\
  returns_well_formed (logoutUser backend) /\
  (forall email, returns_well_formed (resetPassword backend email)) /\
  (forall companyId, returns_well_formed (getCompanyData backend companyId)) /\
  (forall companyId currentUser,
      returns_well_formed (getCompanyUsers backend companyId currentUser)) /\
  (forall userId isActive currentUser,
      returns_well_formed (toggleUserStatus backend userId isActive currentUser)).
Proof.
  repeat split;
    auto using loginUser_well_formed, createUser_well_formed,
      logoutUser_well_formed, resetPassword_well_formed,
      getCompanyData_well_formed, getCompanyUsers_well_formed,
      toggleUserStatus_well_formed.
Qed.

(** ** Login *)

Section Login.

Variable backend : Backend.
Variables email password : string.
Variable w : World.
Variable cred : UserCredential.
Variable userData : User.

Let h1 := history w ++ [Ev (signInWithEmailAndPassword email password)].
Let h2 := h1 ++ [Ev (getDoc_users (uid (cred_user cred)))].
Let stamp :=
  updateDoc_users (uid (cred_user cred)) (patch_last_login ServerTimestamp).

(** Authentication succeeds and the Identity Record is found. *)
Hypothesis authenticated :
  backend _ (history w) (signInWithEmailAndPassword email password) = Ok cred.
Hypothesis record_found :
  backend _ h1 (getDoc_users (uid (cred_user cred))) = Ok (Some userData).

(** [loginUser] up to the point where the record has been read. *)
Ltac reach_record :=
  unfold loginUser; unfold_monad; cbn;
  rewrite authenticated; cbn; fold h1; rewrite record_found; cbn.

(** C2, as the code has it.  When authentication succeeds and the Identity
    Record exists with [is_active = false], [loginUser] calls [signOut] (its
    last call across the boundary) and returns an envelope with
    [success = false] and no data; when the sign-out succeeds the error code
    is [login-failed] and the message says the account is deactivated. *)
Theorem loginUser_inactive_account :
  is_active userData = false ->
  exists r,
    fst (loginUser backend email password w) = Ok r /\
    success r = false /\
    data r = None /\
    history (snd (loginUser backend email password w)) = h2 ++ [Ev signOut] /\
    (backend _ h2 signOut = Ok tt ->
     error r = Some {| code := "login-failed";
                       message := "このアカウントは無効化されています" |}).
Proof.
  intros inactive. reach_record. rewrite inactive. cbn. fold h2.
  destruct (backend unit h2 signOut) as [[]|e]; cbn;
    eexists; repeat split; discriminate.
Qed.

(** C3, as the code has it.  When authentication succeeds and the Identity
    Record is found with [is_active = true], [loginUser] returns
    [success = true] with the record and the token provided the write that
    stamps the last-login time and the token fetch both succeed; when the
    stamp write fails the login fails: the envelope has [success = false]
    and the code of the write's error ([login-failed] when it has none). *)
Theorem loginUser_active_account :
  is_active userData = true ->
  (forall tok,
      backend _ h2 stamp = Ok tt ->
      backend _ (h2 ++ [Ev stamp]) (getIdToken (cred_user cred)) = Ok tok ->
      fst (loginUser backend email password w) =
        Ok {| success := true;
              data := Some {| profile := userData; token := Some tok |};
              error := None;
              response_message := Some "ログインに成功しました" |}) /\
  (forall e,
      backend _ h2 stamp = Throw e ->
      exists r,
        fst (loginUser backend email password w) = Ok r /\
        success r = false /\
        data r = None /\
        option_map code (error r)
          = Some (Js.or_else (Js.err_code e) "login-failed")).
Proof.
  intros active. split.
  - intros tok stamped tokened. reach_record. rewrite active. cbn.
    fold h2 stamp. rewrite stamped. cbn. rewrite tokened. reflexivity.
  - intros e failed. reach_record. rewrite active. cbn.
    fold h2 stamp. rewrite failed. cbn. eexists. repeat split.
Qed.

End Login.

Lemma loginUser_inactive_account_witness :
  exists r,
    fst (loginUser Sample.inactive_account "alice@example.com" "secret"
           Sample.empty_world) = Ok r /\
    success r = false /\
    data r = None /\
    history (snd (loginUser Sample.inactive_account "alice@example.com" "secret"
                    Sample.empty_world))
      = [Ev (signInWithEmailAndPassword "alice@example.com" "secret");
         Ev (getDoc_users "u-alice"); Ev signOut] /\
    (Sample.inactive_account unit
       [Ev (signInWithEmailAndPassword "alice@example.com" "secret");
        Ev (getDoc_users "u-alice")] signOut = Ok tt ->
     error r = Some {| code := "login-failed";
                       message := "このアカウントは無効化されています" |}).
Proof.
  apply (loginUser_inactive_account Sample.inactive_account
           "alice@example.com" "secret" Sample.empty_world
           {| cred_user := Sample.alice_principal |} Sample.alice_inactive);
    reflexivity.
Defined.

(** C2, as stated, fails: the sign-in succeeds, the record is inactive, the
    sign-out succeeds, and the error code of the envelope is [login-failed],
    not [account-inactive]. *)
Lemma loginUser_inactive_code_is_login_failed :
  Sample.inactive_account _ []
    (signInWithEmailAndPassword "alice@example.com" "secret")
    = Ok {| cred_user := Sample.alice_principal |} /\
  Sample.inactive_account _
    [Ev (signInWithEmailAndPassword "alice@example.com" "secret")]
    (getDoc_users "u-alice") = Ok (Some Sample.alice_inactive) /\
  is_active Sample.alice_inactive = false /\
  fst (loginUser Sample.inactive_account "alice@example.com" "secret"
         Sample.empty_world)
    = Ok (failure "login-failed" "このアカウントは無効化されています") /\
  "login-failed" <> "account-inactive".
Proof. repeat split. discriminate. Qed.

Lemma loginUser_active_account_witness :
  fst (loginUser Sample.healthy "alice@example.com" "secret" Sample.empty_world)
    = Ok {| success := true;
            data := Some Sample.alice_session;
            error := None;
            response_message := Some "ログインに成功しました" |}.
Proof.
  apply (proj1 (loginUser_active_account Sample.healthy
                  "alice@example.com" "secret" Sample.empty_world
                  {| cred_user := Sample.alice_principal |} Sample.alice
                  eq_refl eq_refl eq_refl) "token-1");
    reflexivity.
Defined.

(** C3, as stated, fails: the sign-in succeeds, the record is found and
    active, the write of the last-login time is refused, and [loginUser]
    returns [success = false] with the error of the write. *)
Lemma loginUser_stamp_failure_fails_login :
  Sample.read_only_directory _ []
    (signInWithEmailAndPassword "alice@example.com" "secret")
    = Ok {| cred_user := Sample.alice_principal |} /\
  Sample.read_only_directory _
    [Ev (signInWithEmailAndPassword "alice@example.com" "secret")]
    (getDoc_users "u-alice") = Ok (Some Sample.alice) /\
  is_active Sample.alice = true /\
  fst (loginUser Sample.read_only_directory "alice@example.com" "secret"
         Sample.empty_world)
    = Ok (failure "unavailable" "The service is currently unavailable.") /\
  success (@failure AuthUser "unavailable"
             "The service is currently unavailable.") = false.
Proof. repeat split. Qed.

(** ** Authorization preconditions *)

Section Authorization.

Variable backend : Backend.

(** C5.  With an acting user whose role is [user], [createUser] returns
    [success = false] with the message that the user may not create users,
    which carries the authorization-denial phrase, and makes no call across
    the boundary at all: neither [createUserWithEmailAndPassword] nor
    [setDoc] is reached. *)
Theorem createUser_requires_admin userData (currentUser : AuthUser) w :
  role currentUser = user ->
  exists r,
    fst (createUser backend userData currentUser w) = Ok r /\
    success r = false /\
    error r = Some {| code := "user-creation-failed";
                      message := "ユーザー作成権限がありません" |} /\
    denies_authorization r /\
    history (snd (createUser backend userData currentUser w)) = history w.
Proof.
  intros not_admin. unfold createUser. unfold_monad. rewrite not_admin. cbn.
  eexists. repeat split. eexists. split; reflexivity.
Qed.

(** C9.  When the acting user's [company_id] differs from the requested
    tenant, [getCompanyUsers] returns [success = false] and makes no call
    across the boundary: the query is never executed. *)
Theorem getCompanyUsers_other_tenant companyId (currentUser : AuthUser) w :
  company_id currentUser <> companyId ->
  exists r,
    fst (getCompanyUsers backend companyId currentUser w) = Ok r /\
    success r = false /\
    history (snd (getCompanyUsers backend companyId currentUser w)) = history w.
Proof.
  intros other. apply String.eqb_neq in other.
  unfold getCompanyUsers. unfold_monad. rewrite other. cbn.
  eexists. repeat split.
Qed.

(** C6.  [toggleUserStatus] with the acting user's own id as target returns
    [success = false] whatever the role, the tenant and the backend's
    answers, and the calls it makes include no [updateDoc]. *)
Theorem toggleUserStatus_self isActive (currentUser : AuthUser) w :
  exists r calls,
    fst (toggleUserStatus backend (id currentUser) isActive currentUser w)
      = Ok r /\
    success r = false /\
    history (snd (toggleUserStatus backend (id currentUser) isActive
                    currentUser w))
      = history w ++ calls /\
    count is_updateDoc calls = 0.
Proof.
  unfold toggleUserStatus. unfold_monad. rewrite String.eqb_refl.
  destruct (role_eqb (role currentUser) admin); cbn.
  - destruct (backend _ (history w) (getDoc_users (id currentUser)))
      as [[u|]|e]; cbn;
      [ destruct (String.eqb (company_id u) (company_id currentUser)); cbn
      | | ];
      eexists; exists [Ev (getDoc_users (id currentUser))]; repeat split.
  - eexists; exists []; repeat split. cbn. now rewrite app_nil_r.
Qed.

End Authorization.

Lemma createUser_requires_admin_witness :
  exists r,
    fst (createUser Sample.healthy
           {| new_email := "carol@example.com"; new_password := "password123";
              new_name := "Carol"; new_company_id := "acme"; new_role := user |}
           Sample.alice_session Sample.empty_world) = Ok r /\
    success r = false /\
    error r = Some {| code := "user-creation-failed";
                      message := "ユーザー作成権限がありません" |} /\
    denies_authorization r /\
    history (snd (createUser Sample.healthy
           {| new_email := "carol@example.com"; new_password := "password123";
              new_name := "Carol"; new_company_id := "acme"; new_role := user |}
           Sample.alice_session Sample.empty_world)) = [].
Proof.
  apply (createUser_requires_admin Sample.healthy _ Sample.alice_session
           Sample.empty_world).
  reflexivity.
Defined.

Lemma getCompanyUsers_other_tenant_witness :
  exists r,
    fst (getCompanyUsers Sample.healthy "globex" Sample.alice_session
           Sample.empty_world) = Ok r /\
    success r = false /\
    history (snd (getCompanyUsers Sample.healthy "globex" Sample.alice_session
                    Sample.empty_world)) = [].
Proof.
  apply (getCompanyUsers_other_tenant Sample.healthy "globex"
           Sample.alice_session Sample.empty_world).
  discriminate.
Defined.

(** An admin of the same tenant may toggle another user, and then the write
    is made: the refusal above is the self-check, not a dead function. *)
Example toggleUserStatus_other :
  history (snd (toggleUserStatus Sample.healthy "u-alice" false
                  {| profile :=
                       {| id := "u-dana"; email := "dana@example.com";
                          name := "Dana"; company_id := "acme"; role := admin;
                          created_at := Ts 1640995200 0; last_login := None;
                          is_active := true |};
                     token := None |}
                  Sample.empty_world))
    = [Ev (getDoc_users "u-alice");
       Ev (updateDoc_users "u-alice" (patch_is_active false ServerTimestamp))].
Proof. reflexivity. Qed.

(** ** Logout *)

Section Logout.

Import AuthProvider.

Variable backend : Backend.

(** C10.  [logoutUser] always returns an envelope, so [logout] returns and
    leaves both [user] and [company] absent (and [loading] false) after every
    call, whatever [signOut] answers. *)
Theorem logout_clears_session w :
  (exists r, fst (logoutUser backend w) = Ok r) /\
  fst (logout backend w) = Ok tt /\
  st_user (auth_state (snd (logout backend w))) = None /\
  st_company (auth_state (snd (logout backend w))) = None /\
  st_loading (auth_state (snd (logout backend w))) = false.
Proof.
  unfold logout, logoutUser, setLoading, setError, setUser, setCompany.
  unfold_monad. cbn.
  destruct (backend unit (history w) signOut); cbn; repeat split;
    eexists; reflexivity.
Qed.

End Logout.

(** With a backend that rejects [signOut], a signed-in context is cleared
    all the same. *)
Example logout_offline :
  let signed_in :=
    set_auth_state
      {| st_user := Some Sample.alice_session; st_company := Some Sample.acme;
         st_loading := false; st_error := None |} Sample.empty_world in
  fst (logoutUser Sample.offline signed_in)
    = Ok (failure "logout-failed" "ログアウトに失敗しました") /\
  auth_state (snd (AuthProvider.logout Sample.offline signed_in))
    = {| st_user := None; st_company := None;
         st_loading := false; st_error := None |}.
Proof. split; reflexivity. Qed.

(** ** The Session Watcher *)

Section Watcher.

Variable backend : Backend.
Variable fu : FirebaseUser.
Variable w : World.

(** The subscriber's callback returns normally. *)
Hypothesis callback_returns :
  forall h u, backend unit h (invoke_callback u) = Ok tt.

(** X31.  With a callback that returns normally, a notification that
    carries a principal makes exactly one callback invocation, as its last
    call, and the listener returns; when the Identity Record is not found
    the watcher calls [signOut] and then the callback with absent; when the
    directory fetch throws, the callback is invoked with absent and nothing
    is thrown. *)
Theorem onAuthStateChange_principal : watcher_contract backend fu w.
Proof.
  unfold watcher_contract, onAuthStateChange, Caller.callback.
  unfold_monad. cbn.
  destruct (backend _ (history w) (getDoc_users (uid fu))) as [[u|]|e]; cbn.
  - destruct (backend string _ (getIdToken fu)); cbn;
      rewrite callback_returns; cbn;
      (split; [reflexivity|]); eexists [_; _], _;
      rewrite <- !app_assoc; cbn; repeat split; discriminate.
  - destruct (backend unit _ signOut); cbn;
      rewrite callback_returns; cbn;
      (split; [reflexivity|]); eexists [_; _], _;
      rewrite <- !app_assoc; cbn; repeat split; discriminate.
  - rewrite callback_returns; cbn.
    split; [reflexivity|]. eexists [_], _.
    rewrite <- !app_assoc; cbn; repeat split; discriminate.
Qed.

End Watcher.

Lemma onAuthStateChange_principal_witness :
  watcher_contract Sample.orphaned_credential Sample.alice_principal
    Sample.empty_world.
Proof.
  apply (onAuthStateChange_principal Sample.orphaned_credential
           Sample.alice_principal Sample.empty_world).
  intros h u. reflexivity.
Defined.

(** C7.  The listener breaks the claim when the callback throws: the record
    of the principal is found and its token issued, the callback throws when
    it is given the session user, and the [catch] block, written for a
    failed fetch of the user data, invokes the callback again with absent:
    one notification has made two callback invocations.  (The path without
    a principal calls the callback outside the [try].) *)
Lemma onAuthStateChange_callback_invoked_twice :
  let run :=
    onAuthStateChange Sample.throwing_callback
      (Caller.callback Sample.throwing_callback)
      (Some Sample.alice_principal) Sample.empty_world in
  history (snd run)
    = [Ev (getDoc_users "u-alice"); Ev (getIdToken Sample.alice_principal);
       Ev (invoke_callback (Some Sample.alice_session));
       Ev (invoke_callback None)] /\
  count is_callback (history (snd run)) = 2.
Proof. split; reflexivity. Qed.

(** ** The Login Form Controller *)

Example email_pattern_accepts :
  Regex.test Regex.email_pattern "a@b.com" = true /\
  Regex.test Regex.email_pattern "first.last@mail.example.org" = true.
Proof. split; reflexivity. Qed.

Example email_pattern_rejects :
  Regex.test Regex.email_pattern "not-an-email" = false /\
  Regex.test Regex.email_pattern "a@b" = false /\
  Regex.test Regex.email_pattern "a b@c.de" = false /\
  Regex.test Regex.email_pattern "a@b@c.de" = false /\
  Regex.test Regex.email_pattern "@b.com" = false /\
  Regex.test Regex.email_pattern "a@b." = false.
Proof. repeat split. Qed.

Section Form.

Import LoginFormController.

Variable backend : Backend.
Variable withOnSuccess : bool.

(** A submission that fails validation records the errors and stops. *)
Lemma submit_invalid w :
  no_keys (newErrors (values (form_state w))) = false ->
  submit backend withOnSuccess w
    = (Ok tt, snd (setErrors (newErrors (values (form_state w))) w)).
Proof.
  intros invalid. unfold submit, handleSubmit, validateForm. unfold_monad.
  cbn. rewrite invalid. reflexivity.
Qed.

(** A submission that passes validation calls [login] first, with the
    values of the form, and never again. *)
Lemma submit_valid w :
  no_keys (newErrors (values (form_state w))) = true ->
  exists rest,
    history (snd (submit backend withOnSuccess w))
      = history w
          ++ Ev (invoke_login (form_email (values (form_state w)))
                   (form_password (values (form_state w)))) :: rest /\
    count is_login rest = 0 /\
    isSubmitting (form_state (snd (submit backend withOnSuccess w))) = false.
Proof.
  intros valid.
  unfold submit, handleSubmit, validateForm, setIsSubmitting,
    Caller.login, Caller.onSuccess.
  unfold_monad. cbn. rewrite valid. cbn.
  destruct (backend _ (history w) (invoke_login _ _)) as [r|e]; cbn;
    [ destruct (success r); cbn;
      [ destruct withOnSuccess; cbn;
        [ destruct (backend unit _ invoke_onSuccess); cbn;
          exists [Ev invoke_onSuccess]; rewrite <- app_assoc
        | exists [] ]
      | exists [] ]
    | exists [] ];
    repeat split.
Qed.

(** C8.  [handleSubmit] with email "not-an-email" and any password sets the
    format error on [email] and makes no call, so [login] is not invoked;
    with "a@b.com" and "12345" it sets the length error on [password] and
    makes no call; with "a@b.com" and "123456" its first call is [login]
    with these values and no later call is a [login]: exactly one. *)
Theorem handleSubmit_examples w :
  (forall password,
      let w' := snd (submit backend withOnSuccess
                       (fill "not-an-email" password w)) in
      email_error (errors (form_state w'))
        = Some "メールアドレスの形式が正しくありません" /\
      history w' = history w) /\
  (let w' := snd (submit backend withOnSuccess (fill "a@b.com" "12345" w)) in
   password_error (errors (form_state w'))
     = Some "パスワードは6文字以上で入力してください" /\
   history w' = history w) /\
  (exists rest,
      history (snd (submit backend withOnSuccess (fill "a@b.com" "123456" w)))
        = history w ++ Ev (invoke_login "a@b.com" "123456") :: rest /\
      count is_login (Ev (invoke_login "a@b.com" "123456") :: rest) = 1).
Proof.
  split; [ | split ].
  - intros password w'. subst w'.
    rewrite submit_invalid; [ split; reflexivity | reflexivity ].
  - rewrite submit_invalid; [ split; reflexivity | reflexivity ].
  - destruct (submit_valid (fill "a@b.com" "123456" w))
      as (rest & Hhistory & Hcount & _); [ reflexivity | ].
    exists rest. split; [ exact Hhistory | ].
    unfold count in *. cbn. now rewrite Hcount.
Qed.

End Form.

(** ** The Session Context *)

Section Context.

Import AuthProvider Session.

Variable backend : Backend.

Ltac unfold_setters := unfold setUser, setCompany, setLoading, setError in *.

(** What a notification of a session user does to the state cells. *)
Lemma notify_user u w :
  let w' := snd (authStateCallback backend (Some u) w) in
  st_user (auth_state w') = Some u /\
  (if tenant_fetch_succeeds backend u w
   then st_company (auth_state w') <> None
   else st_company (auth_state w') = st_company (auth_state w) /\
        st_error (auth_state w') = Some "会社情報の取得に失敗しました").
Proof.
  unfold tenant_fetch_succeeds, authStateCallback, getCompanyData.
  unfold_setters. unfold_monad. cbn.
  destruct (backend _ (history w) (getDoc_companies (company_id u)))
    as [[c|]|e]; cbn; repeat split; discriminate.
Qed.

Lemma notify_absent w :
  let w' := snd (authStateCallback backend None w) in
  st_user (auth_state w') = None /\ st_company (auth_state w') = None.
Proof. split; reflexivity. Qed.

Lemma logout_state w :
  let w' := snd (logout backend w) in
  st_user (auth_state w') = None /\ st_company (auth_state w') = None.
Proof.
  unfold logout, logoutUser. unfold_setters. unfold_monad. cbn.
  destruct (backend unit (history w) signOut); cbn; split; reflexivity.
Qed.

Lemma login_state email password w :
  let w' := snd (login backend email password w) in
  st_user (auth_state w') = st_user (auth_state w) /\
  st_company (auth_state w') = st_company (auth_state w).
Proof.
  unfold login, loginUser. unfold_setters. unfold_monad.
  backend_cases; split; reflexivity.
Qed.

Lemma sendPasswordReset_state email w :
  let w' := snd (sendPasswordReset backend email w) in
  st_user (auth_state w') = st_user (auth_state w) /\
  st_company (auth_state w') = st_company (auth_state w).
Proof.
  unfold sendPasswordReset, resetPassword. unfold_setters. unfold_monad.
  backend_cases; split; reflexivity.
Qed.

Lemma snd_bind_ret A (m : M A) w : snd ((m ;; ret tt) w) = snd (m w).
Proof. unfold bind, ret. destruct (m w) as [[a|e] w']; reflexivity. Qed.

Lemma attach_consistent w : consistent (attach w).
Proof. repeat split; cbn; congruence. Qed.

Lemma step_consistent o s :
  consistent s ->
  consistent (snd (run_op backend o (fst s)), track backend o (fst s) (snd s)).
Proof.
  destruct s as [w g]. unfold consistent, company_of, user_of. cbn [fst snd].
  intros (Hc & Hg & Hu).
  destruct o as [[u|]| email password | | email | ]; cbn [run_op track].
  - pose proof (notify_user u w) as (Huser & Hfetch). cbv zeta in *.
    rewrite Huser. destruct (tenant_fetch_succeeds backend u w).
    + repeat split; try discriminate; auto.
    + repeat split; discriminate.
  - pose proof (notify_absent w) as (-> & ->).
    repeat split; auto; try discriminate; congruence.
  - pose proof (login_state email password w) as (Hu' & Hc'). cbv zeta in *.
    rewrite snd_bind_ret, Hu', Hc'. auto.
  - pose proof (logout_state w) as (-> & ->).
    repeat split; auto; try discriminate; congruence.
  - pose proof (sendPasswordReset_state email w) as (Hu' & Hc').
    cbv zeta in *. rewrite snd_bind_ret, Hu', Hc'. auto.
  - cbn. auto.
Qed.

Lemma exec_consistent ops :
  forall s, consistent s -> consistent (exec backend ops s).
Proof.
  induction ops as [|o ops IH]; intros s Hs; cbn [exec]; [assumption|].
  apply IH, step_consistent, Hs.
Qed.

(** What holds when the operations run one after the other, each to
    completion, so that nothing runs while a callback awaits its tenant
    fetch: [company] is populated only if [user] is present, and it is
    populated whenever [user] is present and the most recent tenant fetch of
    the session succeeded; a notification whose tenant fetch fails leaves
    [user] set to the notified user and records the error message. *)
Theorem session_context_invariant w ops :
  let s := exec backend ops (attach w) in
  (company_of s <> None -> user_of s <> None) /\
  (user_of s <> None -> snd s = Some true -> company_of s <> None) /\
  (forall u,
      let s' := exec backend [Notify (Some u)] s in
      user_of s' = Some u /\
      (snd s' = Some false ->
       error_of s' = Some "会社情報の取得に失敗しました")).
Proof.
  intros s.
  destruct (exec_consistent ops (attach w) (attach_consistent w))
    as (Hc & Hg & Hu).
  fold s in Hc, Hg, Hu. repeat split; auto.
  - cbn. apply notify_user.
  - intros failed. cbn in failed. injection failed as failed.
    pose proof (notify_user u (fst s)) as (_ & Hfetch). cbv zeta in Hfetch.
    rewrite failed in Hfetch. apply Hfetch.
Qed.

End Context.

(** C4.  The callback breaks the claim: Alice's notification loads her
    tenant; Bob's follows with no sign-out between and its tenant fetch
    fails; the failure branch records the error and does not reset
    [company], as the branch for absent and [logout] do, so [company] still
    holds the tenant loaded for Alice although the most recent tenant fetch
    failed. *)
Lemma stale_company_after_failed_fetch :
  let s := Session.exec Sample.tenant_fetch_once
             [Session.Notify (Some Sample.alice_session);
              Session.Notify (Some Sample.bob_session)]
             (Session.attach Sample.empty_world) in
  Session.user_of s = Some Sample.bob_session /\
  Session.company_of s = Some Sample.acme /\
  snd s = Some false /\
  Session.error_of s = Some "会社情報の取得に失敗しました" /\
  ~ Session.company_iff_fetched s.
Proof.
  cbv zeta. repeat split.
  unfold Session.company_iff_fetched. cbn.
  intros [H _]. destruct H as [_ H]; discriminate.
Qed.

(** The same notifications with a backend that always answers leave the
    tenant of the second user. *)
Example company_follows_notification :
  Session.company_of
    (Session.exec Sample.healthy
       [Session.Notify (Some Sample.alice_session); Session.Notify None;
        Session.Notify (Some Sample.bob_session)]
       (Session.attach Sample.empty_world))
    = Some Sample.acme.
Proof. reflexivity. Qed.

Section OverlappingOperations.

Import AuthService AuthProvider Overlap.

(** Run without anything in between, the two halves are the callback. *)
Lemma callback_uninterrupted backend u w :
  authStateCallback backend (Some u) w
    = (companyResult <- callback_until_await backend u ;;
       callback_after_await companyResult) w.
Proof.
  unfold authStateCallback, callback_until_await, callback_after_await,
    getCompanyData, setUser, setCompany, setLoading, setError.
  unfold_monad. cbn.
  destruct (backend _ (history w) (getDoc_companies (company_id u)))
    as [[c|]|e]; reflexivity.
Qed.

(** The missing reset also shows when operations overlap: Alice's
    notification starts the tenant fetch, a logout completes while the fetch
    is in flight, and the callback resumes with the tenant: [user] is absent
    and [company] is populated. *)
Example logout_during_tenant_fetch :
  let started :=
    callback_until_await Sample.healthy Sample.alice_session
      (fst (Session.attach Sample.empty_world)) in
  let logged_out := snd (logout Sample.healthy (snd started)) in
  let resumed :=
    match fst started with
    | Ok companyResult => snd (callback_after_await companyResult logged_out)
    | Throw _ => logged_out
    end in
  st_user (auth_state logged_out) = None /\
  st_company (auth_state logged_out) = None /\
  st_user (auth_state resumed) = None /\
  st_company (auth_state resumed) = Some Sample.acme.
Proof. repeat split. Qed.

End OverlappingOperations.

(** * Further properties of the service, the context, the gate and the form *)

(** Case analysis on what the backend answers, keeping the answers. *)
Ltac answers :=
  repeat (cbn;
          match goal with
          | |- context [match ?b ?A ?h ?c with Ok _ => _ | Throw _ => _ end] =>
              destruct (b A h c) eqn:?
          | |- context [match ?x with Some _ => _ | None => _ end] =>
              is_var x; destruct x
          | |- context [if negb ?b then _ else _] =>
              destruct b eqn:?
          end).

(** The answers kept by [answers], with their histories flattened. *)
Ltac flatten_answers :=
  repeat match goal with
         | H : context [(_ ++ _) ++ _] |- _ =>
             rewrite <- app_assoc in H; cbn in H
         | u : unit |- _ => destruct u
         end.

Section ServiceOutcomes.

Variable backend : Backend.

(** X1.  A successful login is the login of an active user: the sign-in,
    the directory read, the last-login stamp and the token fetch all
    resolved, in this order and with no sign-out; the envelope holds the
    record the directory read returned, which is active, with the token the
    token fetch returned. *)
Theorem loginUser_success_inversion email password w r :
  fst (loginUser backend email password w) = Ok r ->
  success r = true ->
  exists cred userData tok,
    let signIn := signInWithEmailAndPassword email password in
    let read := getDoc_users (uid (cred_user cred)) in
    let stamp :=
      updateDoc_users (uid (cred_user cred)) (patch_last_login ServerTimestamp) in
    let issue := getIdToken (cred_user cred) in
    backend _ (history w) signIn = Ok cred /\
    backend _ (history w ++ [Ev signIn]) read = Ok (Some userData) /\
    is_active userData = true /\
    backend _ (history w ++ [Ev signIn; Ev read]) stamp = Ok tt /\
    backend _ (history w ++ [Ev signIn; Ev read; Ev stamp]) issue = Ok tok /\
    r = {| success := true;
           data := Some {| profile := userData; token := Some tok |};
           error := None;
           response_message := Some "ログインに成功しました" |} /\
    history (snd (loginUser backend email password w))
      = history w ++ [Ev signIn; Ev read; Ev stamp; Ev issue].
Proof.
  intros Hr Hs. revert Hr. unfold loginUser. unfold_monad.
  answers; intros Hr; cbn in Hr; injection Hr as <-; try discriminate.
  flatten_answers.
  eexists _, _, _. cbn. rewrite <- !app_assoc. cbn.
  repeat split; try eassumption; try reflexivity.
Qed.


(** X2.  When the sign-in is rejected, [loginUser] makes no other call and returns
    a failure that keeps the code of the rejection ([login-failed] when it
    has none); unknown or mistyped credentials share one message, and a code
    the switch does not know passes the SDK's message through. *)
Theorem loginUser_sign_in_rejected email password w e :
  backend _ (history w) (signInWithEmailAndPassword email password) = Throw e ->
  exists r,
    fst (loginUser backend email password w) = Ok r /\
    success r = false /\
    history (snd (loginUser backend email password w))
      = history w ++ [Ev (signInWithEmailAndPassword email password)] /\
    option_map code (error r)
      = Some (Js.or_else (Js.err_code e) "login-failed") /\
    (Js.err_code e = Some "auth/user-not-found" \/
     Js.err_code e = Some "auth/wrong-password" ->
     option_map message (error r)
       = Some "メールアドレスまたはパスワードが正しくありません") /\
    (Js.err_code e = Some "auth/too-many-requests" ->
     option_map message (error r)
       = Some "ログイン試行回数が上限に達しました。しばらく時間をおいてお試しください") /\
    (Js.err_code e = Some "auth/user-disabled" ->
     option_map message (error r) = Some "このアカウントは無効化されています") /\
    (Js.err_code e = Some "auth/invalid-email" ->
     option_map message (error r)
       = Some (Js.or_else (Js.err_message e) "ログインに失敗しました")).
Proof.
  intros rejected. unfold loginUser. unfold_monad. cbn. rewrite rejected. cbn.
  eexists. repeat split; try (intros [-> | ->] || intros ->); reflexivity.
Qed.

(** X3.  A credential without an Identity Record cannot log in, and [loginUser]
    leaves the remote session as the sign-in made it: it reads the directory
    and stops, without a sign-out. *)
Theorem loginUser_missing_record email password w cred :
  backend _ (history w) (signInWithEmailAndPassword email password) = Ok cred ->
  backend _ (history w ++ [Ev (signInWithEmailAndPassword email password)])
    (getDoc_users (uid (cred_user cred))) = Ok None ->
  fst (loginUser backend email password w)
    = Ok (failure "login-failed" "ユーザー情報が見つかりません") /\
  history (snd (loginUser backend email password w))
    = history w ++ [Ev (signInWithEmailAndPassword email password);
                    Ev (getDoc_users (uid (cred_user cred)))].
Proof.
  intros signed missing. unfold loginUser. unfold_monad. cbn.
  rewrite signed. cbn. rewrite missing. cbn.
  rewrite <- app_assoc. split; reflexivity.
Qed.

(** X4.  A successful [createUser] was asked by an admin; the tenant read,
    the credential creation, the profile update and the record write all
    resolved, in this order; the record returned is active, carries the uid
    of the credential the SDK created and the fields of the request, and is
    the document that was written. *)
Theorem createUser_success_inversion userData (currentUser : AuthUser) w r :
  fst (createUser backend userData currentUser w) = Ok r ->
  success r = true ->
  role currentUser = admin /\
  exists c cred,
    let tenant := getDoc_companies (new_company_id userData) in
    let create :=
      createUserWithEmailAndPassword (new_email userData) (new_password userData) in
    let rename := updateProfile (cred_user cred) (new_name userData) in
    let newUser :=
      {| id := uid (cred_user cred);
         email := new_email userData;
         name := new_name userData;
         company_id := new_company_id userData;
         role := new_role userData;
         created_at := ServerTimestamp;
         last_login := None;
         is_active := true |} in
    let write := setDoc_users (uid (cred_user cred)) newUser in
    backend _ (history w) tenant = Ok (Some c) /\
    backend _ (history w ++ [Ev tenant]) create = Ok cred /\
    backend _ (history w ++ [Ev tenant; Ev create]) rename = Ok tt /\
    backend _ (history w ++ [Ev tenant; Ev create; Ev rename]) write = Ok tt /\
    r = {| success := true; data := Some newUser; error := None;
           response_message := Some "ユーザーを作成しました" |} /\
    history (snd (createUser backend userData currentUser w))
      = history w ++ [Ev tenant; Ev create; Ev rename; Ev write].
Proof.
  intros Hr Hs. revert Hr. unfold createUser. unfold_monad.
  destruct (role currentUser) eqn:Hrole; cbn;
    answers; intros Hr; cbn in Hr; injection Hr as <-; try discriminate.
  flatten_answers.
  split; [reflexivity|]. eexists _, _. cbn. rewrite <- !app_assoc. cbn.
  repeat split; try eassumption; try reflexivity.
Qed.

(** X5.  For an admin, a tenant that does not exist stops [createUser] after the
    tenant read: no credential is created and nothing is written. *)
Theorem createUser_missing_company userData (currentUser : AuthUser) w :
  role currentUser = admin ->
  backend _ (history w) (getDoc_companies (new_company_id userData)) = Ok None ->
  fst (createUser backend userData currentUser w)
    = Ok (failure "user-creation-failed" "指定された会社が見つかりません") /\
  history (snd (createUser backend userData currentUser w))
    = history w ++ [Ev (getDoc_companies (new_company_id userData))].
Proof.
  intros is_admin missing. unfold createUser. unfold_monad.
  rewrite is_admin. cbn. rewrite missing. cbn. split; reflexivity.
Qed.

(** X6.  When the SDK refuses the new credential, [createUser] writes no record
    and reports the SDK's code with the message of the service for an email
    in use, a weak password or a malformed email. *)
Theorem createUser_credential_rejected userData (currentUser : AuthUser) w c e :
  role currentUser = admin ->
  backend _ (history w) (getDoc_companies (new_company_id userData))
    = Ok (Some c) ->
  backend _ (history w ++ [Ev (getDoc_companies (new_company_id userData))])
    (createUserWithEmailAndPassword (new_email userData) (new_password userData))
    = Throw e ->
  exists r,
    fst (createUser backend userData currentUser w) = Ok r /\
    success r = false /\
    history (snd (createUser backend userData currentUser w))
      = history w ++
        [Ev (getDoc_companies (new_company_id userData));
         Ev (createUserWithEmailAndPassword (new_email userData)
               (new_password userData))] /\
    option_map code (error r)
      = Some (Js.or_else (Js.err_code e) "user-creation-failed") /\
    (Js.err_code e = Some "auth/email-already-in-use" ->
     option_map message (error r)
       = Some "このメールアドレスは既に使用されています") /\
    (Js.err_code e = Some "auth/weak-password" ->
     option_map message (error r) = Some "パスワードが短すぎます（6文字以上）") /\
    (Js.err_code e = Some "auth/invalid-email" ->
     option_map message (error r)
       = Some "メールアドレスの形式が正しくありません").
Proof.
  intros is_admin found rejected. unfold createUser. unfold_monad.
  rewrite is_admin. cbn. rewrite found. cbn. rewrite rejected. cbn.
  rewrite <- app_assoc.
  eexists. repeat split; try intros ->; reflexivity.
Qed.

(** X7.  When the record write fails after the credential was created,
    [createUser] reports the failure and makes no further call: nothing
    removes the credential, which stays without an Identity Record. *)
Theorem createUser_record_write_fails userData (currentUser : AuthUser) w c cred e :
  let h1 := history w ++ [Ev (getDoc_companies (new_company_id userData))] in
  let create :=
    createUserWithEmailAndPassword (new_email userData) (new_password userData) in
  let h2 := h1 ++ [Ev create] in
  let profile_update := updateProfile (cred_user cred) (new_name userData) in
  let h3 := h2 ++ [Ev profile_update] in
  let write :=
    setDoc_users (uid (cred_user cred))
      {| id := uid (cred_user cred);
         email := new_email userData;
         name := new_name userData;
         company_id := new_company_id userData;
         role := new_role userData;
         created_at := ServerTimestamp;
         last_login := None;
         is_active := true |} in
  role currentUser = admin ->
  backend _ (history w) (getDoc_companies (new_company_id userData))
    = Ok (Some c) ->
  backend _ h1 create = Ok cred ->
  backend _ h2 profile_update = Ok tt ->
  backend _ h3 write = Throw e ->
  exists r,
    fst (createUser backend userData currentUser w) = Ok r /\
    success r = false /\
    option_map code (error r)
      = Some (Js.or_else (Js.err_code e) "user-creation-failed") /\
    history (snd (createUser backend userData currentUser w)) = h3 ++ [Ev write].
Proof.
  intros h1 create h2 profile_update h3 write
    is_admin found created updated failed.
  unfold createUser. unfold_monad.
  rewrite is_admin. cbn. rewrite found. cbn. fold h1 create.
  rewrite created. cbn. fold h2 profile_update. rewrite updated. cbn.
  fold h3 write. rewrite failed. cbn.
  eexists. repeat split.
Qed.

(** X8.  [logoutUser] makes exactly one call, the sign-out, and succeeds exactly
    when that call resolves; a rejection of any kind becomes the one
    [logout-failed] envelope. *)
Theorem logoutUser_outcome w :
  history (snd (logoutUser backend w)) = history w ++ [Ev signOut] /\
  exists r,
    fst (logoutUser backend w) = Ok r /\
    (success r = true <-> backend _ (history w) signOut = Ok tt) /\
    (success r = false ->
     r = failure "logout-failed" "ログアウトに失敗しました").
Proof.
  unfold logoutUser. unfold_monad. cbn.
  destruct (backend unit (history w) signOut) as [[]|e]; cbn;
    (split; [reflexivity|]); eexists; (split; [reflexivity|]); cbn;
    repeat split; try discriminate; reflexivity.
Qed.

(** X9.  [resetPassword] makes exactly one call, the reset request for the given
    email, and succeeds exactly when it resolves; an unknown address and a
    malformed one get the messages of the service. *)
Theorem resetPassword_outcome email w :
  let request := sendPasswordResetEmail email in
  history (snd (resetPassword backend email w)) = history w ++ [Ev request] /\
  exists r,
    fst (resetPassword backend email w) = Ok r /\
    (success r = true <-> backend _ (history w) request = Ok tt) /\
    (forall e,
        backend _ (history w) request = Throw e ->
        option_map code (error r)
          = Some (Js.or_else (Js.err_code e) "password-reset-failed") /\
        (Js.err_code e = Some "auth/user-not-found" ->
         option_map message (error r)
           = Some "このメールアドレスのユーザーが見つかりません") /\
        (Js.err_code e = Some "auth/invalid-email" ->
         option_map message (error r)
           = Some "メールアドレスの形式が正しくありません")).
Proof.
  intros request. subst request. unfold resetPassword. unfold_monad. cbn.
  destruct (backend unit (history w) (sendPasswordResetEmail email)) as [[]|e];
    cbn; (split; [reflexivity|]); eexists; (split; [reflexivity|]); cbn.
  - split; [split; reflexivity | discriminate].
  - split; [split; discriminate|].
    intros e' [= <-]. repeat split; intros ->; reflexivity.
Qed.

(** X10.  [getCompanyData] makes exactly one call, the read of the tenant
    document.  It succeeds exactly when the read resolves with an existing
    document, and then the document is the data and there is no error;
    every other answer gives a failure without data and with the code
    [company-fetch-failed], whose message says the tenant was not found
    when the document is missing and is the message of the rejection (or
    the default one) when the read was rejected. *)
Theorem getCompanyData_outcome companyId w :
  let read := getDoc_companies companyId in
  history (snd (getCompanyData backend companyId w)) = history w ++ [Ev read] /\
  exists r,
    fst (getCompanyData backend companyId w) = Ok r /\
    (success r = true <-> exists c, backend _ (history w) read = Ok (Some c)) /\
    (forall c, backend _ (history w) read = Ok (Some c) ->
               data r = Some c /\ error r = None) /\
    (success r = false ->
     data r = None /\
     option_map code (error r) = Some "company-fetch-failed") /\
    (backend _ (history w) read = Ok None ->
     option_map message (error r) = Some "会社情報が見つかりません") /\
    (forall e, backend _ (history w) read = Throw e ->
               option_map message (error r)
                 = Some (Js.or_else (Js.err_message e)
                           "会社情報の取得に失敗しました")).
Proof.
  intros read. subst read. unfold getCompanyData. unfold_monad. cbn.
  destruct (backend _ (history w) (getDoc_companies companyId)) as [[c|]|e];
    cbn; (split; [reflexivity|]); eexists; (split; [reflexivity|]); cbn.
  - repeat split; try discriminate; eauto; congruence.
  - repeat split; try discriminate.
    intros [c H]; discriminate.
  - repeat split; try discriminate.
    + intros [c H]; discriminate.
    + intros e' [= <-]. reflexivity.
Qed.

Lemma push_all (A : Type) (docs acc : list A) :
  fold_left (fun users doc => users ++ [doc]) docs acc = acc ++ docs.
Proof.
  revert acc. induction docs as [|d docs IH]; intros acc; cbn.
  - now rewrite app_nil_r.
  - rewrite IH, <- app_assoc. reflexivity.
Qed.

(** X11.  For a member of the tenant, [getCompanyUsers] runs the one query and
    returns the documents it yields, all of them and in the order of the
    snapshot. *)
Theorem getCompanyUsers_same_tenant companyId (currentUser : AuthUser) w docs :
  company_id currentUser = companyId ->
  backend _ (history w) (getDocs_users_where_company_id companyId) = Ok docs ->
  fst (getCompanyUsers backend companyId currentUser w)
    = Ok {| success := true; data := Some docs; error := None;
            response_message := None |} /\
  history (snd (getCompanyUsers backend companyId currentUser w))
    = history w ++ [Ev (getDocs_users_where_company_id companyId)].
Proof.
  intros member answered. unfold getCompanyUsers. unfold_monad.
  apply String.eqb_eq in member. rewrite member. cbn. rewrite answered. cbn.
  rewrite push_all. split; reflexivity.
Qed.

(** X12.  [toggleUserStatus] succeeds exactly when the acting user is an admin,
    the target exists in the acting user's tenant, the target is not the
    acting user, and the write of the flag resolves. *)
Theorem toggleUserStatus_success_iff userId isActive (currentUser : AuthUser) w :
  let h1 := history w ++ [Ev (getDoc_users userId)] in
  exists r,
    fst (toggleUserStatus backend userId isActive currentUser w) = Ok r /\
    (success r = true <->
     role currentUser = admin /\
     (exists target,
         backend _ (history w) (getDoc_users userId) = Ok (Some target) /\
         company_id target = company_id currentUser) /\
     userId <> id currentUser /\
     backend _ h1 (updateDoc_users userId
                     (patch_is_active isActive ServerTimestamp)) = Ok tt).
Proof.
  intros h1. subst h1. unfold toggleUserStatus. unfold_monad.
  destruct (role currentUser) eqn:Hrole; cbn.
  2: { eexists. split; [reflexivity|]. cbn. split; [discriminate|].
       intros (H & _). discriminate. }
  destruct (backend _ (history w) (getDoc_users userId)) as [[target|]|e]; cbn.
  2,3: eexists; (split; [reflexivity|]); cbn; (split; [discriminate|]);
       intros (_ & (t & H & _) & _); discriminate.
  destruct (String.eqb_spec (company_id target) (company_id currentUser)) as [Hc|Hc]; cbn.
  2: { eexists. split; [reflexivity|]. cbn. split; [discriminate|].
       intros (_ & (t & H & Hc') & _). congruence. }
  destruct (String.eqb_spec userId (id currentUser)) as [Hi|Hi]; cbn.
  { eexists. split; [reflexivity|]. cbn. split; [discriminate|].
    intros (_ & _ & H & _). contradiction. }
  destruct (backend unit _ (updateDoc_users userId _)) as [[]|e]; cbn;
    eexists; (split; [reflexivity|]); cbn.
  - split; [|reflexivity]. intros _. repeat split; eauto.
  - split; [discriminate|]. intros (_ & _ & _ & H). discriminate.
Qed.

(** X13.  A target in another tenant is refused after the one directory read, with
    no write, whatever its active flag and the requested one. *)
Theorem toggleUserStatus_cross_tenant userId isActive (currentUser : AuthUser) w target :
  role currentUser = admin ->
  backend _ (history w) (getDoc_users userId) = Ok (Some target) ->
  company_id target <> company_id currentUser ->
  fst (toggleUserStatus backend userId isActive currentUser w)
    = Ok (failure "status-toggle-failed" "異なる会社のユーザーは変更できません") /\
  history (snd (toggleUserStatus backend userId isActive currentUser w))
    = history w ++ [Ev (getDoc_users userId)].
Proof.
  intros is_admin found other. apply String.eqb_neq in other.
  unfold toggleUserStatus. unfold_monad.
  rewrite is_admin. cbn. rewrite found. cbn. rewrite other. cbn.
  split; reflexivity.
Qed.

(** X14.  A user who is not an admin cannot toggle anyone: the refusal comes
    before any call, with the permission message. *)
Theorem toggleUserStatus_requires_admin userId isActive (currentUser : AuthUser) w :
  role currentUser = user ->
  exists r,
    fst (toggleUserStatus backend userId isActive currentUser w) = Ok r /\
    denies_authorization r /\
    history (snd (toggleUserStatus backend userId isActive currentUser w))
      = history w.
Proof.
  intros not_admin. unfold toggleUserStatus. unfold_monad.
  rewrite not_admin. cbn. eexists. repeat split. eexists. split; reflexivity.
Qed.

End ServiceOutcomes.

Section TokenAndWatcher.

Import CurrentUser.

Variable backend : Backend.

(** X15.  [getCurrentUserToken] never throws: it gives no token and makes no call
    when nobody is signed in, and a token fetch that rejects gives no token
    either. *)
Theorem getCurrentUserToken_outcome (currentUser : option FirebaseUser) w :
  match currentUser with
  | None =>
      getCurrentUserToken backend None w = (Ok None, w)
  | Some u =>
      history (snd (getCurrentUserToken backend (Some u) w))
        = history w ++ [Ev (getIdToken u)] /\
      fst (getCurrentUserToken backend (Some u) w)
        = Ok (match backend _ (history w) (getIdToken u) with
              | Ok tok => Some tok
              | Throw _ => None
              end)
  end.
Proof.
  destruct currentUser as [u|]; [|reflexivity].
  unfold getCurrentUserToken, getCurrentUser. unfold_monad. cbn.
  destruct (backend string (history w) (getIdToken u)); split; reflexivity.
Qed.

(** X16.  When the record of the principal is found and its token is issued, the
    callback is given the record with that token, right after the two reads;
    nothing follows when the callback returns, and no sign-out is made. *)
Theorem onAuthStateChange_delivers_record fu w userData tok :
  backend _ (history w) (getDoc_users (uid fu)) = Ok (Some userData) ->
  backend _ (history w ++ [Ev (getDoc_users (uid fu))]) (getIdToken fu) = Ok tok ->
  let authUser := {| profile := userData; token := Some tok |} in
  let h3 := history w ++ [Ev (getDoc_users (uid fu)); Ev (getIdToken fu)] in
  exists rest,
    history (snd (onAuthStateChange backend (Caller.callback backend)
                    (Some fu) w))
      = h3 ++ Ev (invoke_callback (Some authUser)) :: rest /\
    (backend unit h3 (invoke_callback (Some authUser)) = Ok tt -> rest = []) /\
    (rest = [] \/ rest = [Ev (invoke_callback None)]).
Proof.
  intros found issued authUser h3. subst authUser h3.
  unfold onAuthStateChange, Caller.callback. unfold_monad. cbn.
  rewrite found. cbn. rewrite issued. cbn. rewrite <- !app_assoc. cbn.
  destruct (backend unit _ (invoke_callback (Some _))) as [[]|e]; cbn.
  - exists []. rewrite <- !app_assoc. cbn. auto.
  - exists [Ev (invoke_callback None)].
    rewrite <- !app_assoc; cbn; repeat split; auto; discriminate.
Qed.

(** X17.  A token that cannot be issued is treated like a failed directory read:
    the callback is told absent, and no sign-out is made. *)
Theorem onAuthStateChange_token_failure fu w userData e :
  backend _ (history w) (getDoc_users (uid fu)) = Ok (Some userData) ->
  backend _ (history w ++ [Ev (getDoc_users (uid fu))]) (getIdToken fu) = Throw e ->
  history (snd (onAuthStateChange backend (Caller.callback backend) (Some fu) w))
    = history w ++ [Ev (getDoc_users (uid fu)); Ev (getIdToken fu);
                    Ev (invoke_callback None)].
Proof.
  intros found refused.
  unfold onAuthStateChange, Caller.callback. unfold_monad. cbn.
  rewrite found. cbn. rewrite refused. cbn.
  rewrite <- !app_assoc. reflexivity.
Qed.

(** One notification, with or without a principal, adds one callback
    invocation when the callback returns normally. *)
Lemma one_notification_one_callback n w :
  (forall h u, backend unit h (invoke_callback u) = Ok tt) ->
  count is_callback
    (history (snd (onAuthStateChange backend (Caller.callback backend) n w)))
    = count is_callback (history w) + 1.
Proof.
  intros callback_returns.
  unfold onAuthStateChange, Caller.callback. unfold_monad.
  destruct n as [fu|]; cbn.
  - destruct (backend _ (history w) (getDoc_users (uid fu))) as [[u|]|e]; cbn;
      [ destruct (backend string _ (getIdToken fu)); cbn
      | destruct (backend unit _ signOut); cbn | ];
      try rewrite callback_returns; cbn;
      unfold count; rewrite !filter_app, !length_app; cbn; lia.
  - unfold count; rewrite !filter_app, !length_app; cbn; lia.
Qed.

(** X18.  Over any sequence of notifications, a callback that returns normally is
    invoked once per notification. *)
Theorem deliver_one_callback_each notifications w :
  (forall h u, backend unit h (invoke_callback u) = Ok tt) ->
  count is_callback
    (history (deliver backend (Caller.callback backend) notifications w))
    = count is_callback (history w) + length notifications.
Proof.
  intros callback_returns. revert w.
  induction notifications as [|n rest IH]; intros w; cbn [deliver length].
  - lia.
  - rewrite IH, one_notification_one_callback by assumption. lia.
Qed.

End TokenAndWatcher.

Section ContextOutcomes.

Import AuthProvider.

Variable backend : Backend.

Ltac unfold_setters := unfold setUser, setCompany, setLoading, setError in *.

(** X19.  The watcher wired to the context as [useEffect] does it: a notification
    never throws and always ends with [loading] false.  Without a principal
    it clears the session and makes no call; a principal whose record is
    missing (signed out first), whose directory read fails or whose token
    cannot be issued leaves no session in the context; a principal with a
    record and a token becomes [user]. *)
Theorem watcher_drives_context notification w :
  let run :=
    onAuthStateChange backend (authStateCallback backend) notification w in
  let s := auth_state (snd run) in
  fst run = Ok tt /\
  st_loading s = false /\
  match notification with
  | None =>
      st_user s = None /\ st_company s = None /\
      history (snd run) = history w
  | Some fu =>
      match backend _ (history w) (getDoc_users (uid fu)) with
      | Ok (Some userData) =>
          match backend _ (history w ++ [Ev (getDoc_users (uid fu))])
                  (getIdToken fu) with
          | Ok tok =>
              st_user s = Some {| profile := userData; token := Some tok |}
          | Throw _ => st_user s = None /\ st_company s = None
          end
      | Ok None =>
          st_user s = None /\ st_company s = None /\
          In (Ev signOut) (history (snd run))
      | Throw _ => st_user s = None /\ st_company s = None
      end
  end.
Proof.
  unfold onAuthStateChange, authStateCallback, getCompanyData.
  unfold_setters. unfold_monad. destruct notification as [fu|]; cbn.
  2: { repeat split. }
  destruct (backend _ (history w) (getDoc_users (uid fu))) as [[u|]|e]; cbn.
  - destruct (backend string _ (getIdToken fu)); cbn.
    + destruct (backend _ _ (getDoc_companies _)) as [[c|]|e]; cbn;
        repeat split.
    + repeat split.
  - destruct (backend unit _ signOut); cbn; repeat split;
      apply in_or_app; right; cbn; auto.
  - repeat split.
Qed.


Lemma resetPassword_frame email s w :
  resetPassword backend email (set_auth_state s w)
    = (fst (resetPassword backend email w),
       set_auth_state s (snd (resetPassword backend email w))).
Proof.
  unfold resetPassword. unfold_monad. backend_cases; reflexivity.
Qed.

Lemma or_else_nonempty x d : d <> "" -> Js.or_else x d <> "".
Proof.
  intros Hd. unfold Js.or_else. destruct x as [s|]; [|assumption].
  destruct (String.eqb_spec s ""); assumption.
Qed.


(** X21.  The context's [sendPasswordReset] returns what [resetPassword] returns
    and never throws; it touches neither [loading] nor the session, clears
    the error on success and records a non-empty message on failure. *)
Theorem sendPasswordReset_outcome email w :
  let s := auth_state (snd (sendPasswordReset backend email w)) in
  exists r,
    fst (sendPasswordReset backend email w) = Ok r /\
    fst (resetPassword backend email w) = Ok r /\
    st_loading s = st_loading (auth_state w) /\
    st_user s = st_user (auth_state w) /\
    st_company s = st_company (auth_state w) /\
    (success r = true -> st_error s = None) /\
    (success r = false -> exists m, st_error s = Some m /\ m <> "").
Proof.
  destruct (resetPassword_well_formed backend email w) as (r & Hr & _).
  exists r. unfold sendPasswordReset. unfold_setters. unfold_monad. cbn.
  match goal with
  | |- context [resetPassword backend email ?w0] =>
      change w0 with
        (set_auth_state
           {| st_user := st_user (auth_state w);
              st_company := st_company (auth_state w);
              st_loading := st_loading (auth_state w); st_error := None |} w)
  end.
  rewrite resetPassword_frame, Hr. cbn.
  destruct (success r); cbn; repeat split; try discriminate.
  intros _. eexists. split; [reflexivity|].
  apply or_else_nonempty. discriminate.
Qed.

End ContextOutcomes.

Section GateProperties.

Import AuthProvider Gate.

(** X22.  [RequireAuth] admits its children exactly when the context is not
    loading, a user is present and, for an admin-only guard, that user is an
    admin. *)
Theorem RequireAuth_admits_iff requireAdmin value :
  RequireAuth requireAdmin (Some value) = Ok children <->
  st_loading value = false /\
  exists u, st_user value = Some u /\
            (requireAdmin = true -> role u = admin).
Proof.
  unfold RequireAuth, useAuth, isAuthenticated, isAdmin.
  destruct (st_loading value); cbn.
  { split; [discriminate | intros [H _]; discriminate]. }
  destruct (st_user value) as [u|]; cbn.
  2: { split; [discriminate | intros (_ & u & H & _); discriminate]. }
  destruct requireAdmin; cbn.
  2: { split; [intros _ | reflexivity].
       split; [reflexivity|]. exists u. split; [reflexivity | discriminate]. }
  destruct (role u) eqn:Hrole; cbn.
  - split; [intros _ | reflexivity].
    split; [reflexivity|]. exists u. split; [reflexivity | intros _; exact Hrole].
  - split; [discriminate|].
    intros (_ & u' & [= <-] & H). specialize (H eq_refl). congruence.
Qed.

(** Outside a provider the guard fails fast, and inside one it renders the
    placeholder while loading, whatever the session. *)
Theorem RequireAuth_loading_and_unscoped requireAdmin :
  RequireAuth requireAdmin None
    = Throw (Js.new_Error "useAuth must be used within an AuthProvider") /\
  (forall value, st_loading value = true ->
                 RequireAuth requireAdmin (Some value) = Ok loading_placeholder).
Proof.
  split; [reflexivity|]. intros value loading.
  unfold RequireAuth, useAuth. now rewrite loading.
Qed.

(** X23.  After [logout] the guard renders the fallback, for every guard and
    whatever the sign-out answered. *)
Theorem RequireAuth_after_logout backend requireAdmin w :
  RequireAuth requireAdmin (Some (auth_state (snd (logout backend w))))
    = Ok fallback.
Proof.
  unfold RequireAuth, useAuth, isAuthenticated, logout, logoutUser.
  unfold setUser, setCompany, setLoading, setError. unfold_monad. cbn.
  destruct (backend unit (history w) signOut); reflexivity.
Qed.

End GateProperties.

(** ** The validation of the form over UTF-16 code units *)

Section CodeUnitValidation.

Import CodeUnits.
Local Open Scope list_scope.

Lemma nullable_matches r : nullable r = true <-> matches r [].
Proof.
  split.
  - induction r; cbn; intros H; try discriminate.
    + constructor.
    + apply andb_true_iff in H as [H1 H2].
      change (@nil code_unit) with (@nil code_unit ++ []). constructor; auto.
    + apply orb_true_iff in H as [H|H];
        [apply matches_alt_l | apply matches_alt_r]; auto.
    + constructor.
  - intros H. remember [] as s eqn:E.
    induction H; cbn; try discriminate; auto.
    + apply app_eq_nil in E as [-> ->].
      rewrite IHmatches1, IHmatches2; auto.
    + rewrite IHmatches; auto.
    + rewrite IHmatches; auto using orb_true_r.
Qed.

Lemma star_cons_inv r c s :
  matches (Star r) (c :: s) ->
  exists x y, s = x ++ y /\ matches r (c :: x) /\ matches (Star r) y.
Proof.
  intros H. remember (Star r) as R eqn:ER. remember (c :: s) as t eqn:Et.
  revert c s Et. induction H; intros c0 s0 Et; try discriminate.
  injection ER as ->.
  destruct x as [|a x].
  - cbn in Et. apply IHmatches2; auto.
  - cbn in Et. injection Et as -> <-. exists x, y. auto.
Qed.

Lemma matches_never_inv t : ~ matches Never t.
Proof. intros H. inversion H. Qed.

Lemma matches_empty_inv t : matches Empty t -> t = [].
Proof. intros H. inversion H. reflexivity. Qed.

Lemma matches_class_inv p t :
  matches (Class p) t -> exists c, t = [c] /\ p c = true.
Proof. intros H. inversion H; subst. eauto. Qed.

Lemma matches_seq_inv r s t :
  matches (Seq r s) t -> exists x y, t = x ++ y /\ matches r x /\ matches s y.
Proof. intros H. inversion H; subst. eauto. Qed.

Lemma matches_alt_inv r s t : matches (Alt r s) t -> matches r t \/ matches s t.
Proof. intros H. inversion H; subst; auto. Qed.

Lemma seq_cons_inv r s c t :
  matches (Seq r s) (c :: t) ->
  (exists x y, t = x ++ y /\ matches r (c :: x) /\ matches s y) \/
  (matches r [] /\ matches s (c :: t)).
Proof.
  intros H. apply matches_seq_inv in H as (x & y & E & Hx & Hy).
  destruct x as [|a x]; cbn in E.
  - right. subst. auto.
  - injection E as -> ->. left. eauto.
Qed.

Lemma matches_cons_seq r s c x y :
  matches r (c :: x) -> matches s y -> matches (Seq r s) (c :: x ++ y).
Proof.
  intros Hx Hy. change (c :: x ++ y) with ((c :: x) ++ y).
  constructor; assumption.
Qed.

Lemma deriv_matches c r :
  forall s, matches (deriv c r) s <-> matches r (c :: s).
Proof.
  induction r as [ | | p | r1 IH1 r2 IH2 | r1 IH1 r2 IH2 | r IH ]; intros t; cbn.
  - split; intros H; apply matches_never_inv in H; contradiction.
  - split; intros H.
    + apply matches_never_inv in H; contradiction.
    + apply matches_empty_inv in H. discriminate.
  - destruct (p c) eqn:Ep; split; intros H.
    + apply matches_empty_inv in H as ->. constructor; assumption.
    + apply matches_class_inv in H as (c' & E & _). injection E as _ ->.
      constructor.
    + apply matches_never_inv in H; contradiction.
    + apply matches_class_inv in H as (c' & E & Hp). injection E as -> _.
      congruence.
  - destruct (nullable r1) eqn:En; split; intros H.
    + apply matches_alt_inv in H as [H|H].
      * apply matches_seq_inv in H as (x & y & -> & Hx & Hy).
        apply matches_cons_seq; [apply IH1|]; assumption.
      * change (c :: t) with ([] ++ c :: t).
        constructor; [apply nullable_matches | apply IH2]; assumption.
    + apply seq_cons_inv in H as [(x & y & -> & Hx & Hy) | [Hn Hs]].
      * apply matches_alt_l. constructor; [apply IH1|]; assumption.
      * apply matches_alt_r. apply IH2; assumption.
    + apply matches_seq_inv in H as (x & y & -> & Hx & Hy).
      apply matches_cons_seq; [apply IH1|]; assumption.
    + apply seq_cons_inv in H as [(x & y & -> & Hx & Hy) | [Hn Hs]].
      * constructor; [apply IH1|]; assumption.
      * apply nullable_matches in Hn. congruence.
  - split; intros H; apply matches_alt_inv in H as [H|H];
      [ apply matches_alt_l, IH1 | apply matches_alt_r, IH2
      | apply matches_alt_l, IH1 | apply matches_alt_r, IH2 ]; assumption.
  - split; intros H.
    + apply matches_seq_inv in H as (x & y & -> & Hx & Hy).
      change (c :: x ++ y) with ((c :: x) ++ y).
      constructor; [apply IH|]; assumption.
    + apply star_cons_inv in H as (x & y & -> & Hx & Hy).
      constructor; [apply IH|]; assumption.
Qed.

(** The matcher decides the language of the expression. *)
Lemma test_matches s : forall r, test r s = true <-> matches r s.
Proof.
  induction s as [|c s IH]; intros r; cbn.
  - apply nullable_matches.
  - rewrite IH. apply deriv_matches.
Qed.

Lemma matches_star_class p s :
  matches (Star (Class p)) s <-> forallb p s = true.
Proof.
  split.
  - revert p. induction s as [|c s IH]; intros p H; cbn; [reflexivity|].
    apply star_cons_inv in H as (x & y & -> & Hx & Hy).
    apply matches_class_inv in Hx as (c' & E & Hp). injection E as <- ->.
    rewrite Hp. cbn. apply IH. exact Hy.
  - induction s as [|c s IH]; cbn; intros H; [constructor|].
    apply andb_true_iff in H as [Hc Hs].
    change (c :: s) with ([c] ++ s).
    constructor; [constructor|]; auto.
Qed.

Lemma matches_plus_class p s :
  matches (Plus (Class p)) s <-> s <> [] /\ forallb p s = true.
Proof.
  unfold Plus. split.
  - intros H. apply matches_seq_inv in H as (x & y & -> & Hx & Hy).
    apply matches_class_inv in Hx as (c & -> & Hp).
    apply matches_star_class in Hy. cbn. rewrite Hp, Hy.
    split; [discriminate | reflexivity].
  - intros [Hne Hall]. destruct s as [|c s]; [congruence|].
    cbn in Hall. apply andb_true_iff in Hall as [Hc Hs].
    change (c :: s) with ([c] ++ s).
    constructor; [constructor | apply matches_star_class]; assumption.
Qed.

Lemma matches_unit c s : matches (Class (N.eqb c)) s <-> s = [c].
Proof.
  split.
  - intros H. apply matches_class_inv in H as (c' & -> & Hp).
    apply N.eqb_eq in Hp. now subst.
  - intros ->. constructor. apply N.eqb_refl.
Qed.

Lemma email_pattern_matches s :
  matches email_pattern s <->
  exists local domain tld,
    s = local ++ [at_sign] ++ domain ++ [full_stop] ++ tld /\
    word local /\ word domain /\ word tld.
Proof.
  unfold email_pattern, word. split.
  - intros H.
    apply matches_seq_inv in H as (a & r1 & -> & Ha & H).
    apply matches_seq_inv in H as (at_ & r2 & -> & Hat & H).
    apply matches_seq_inv in H as (b & r3 & -> & Hb & H).
    apply matches_seq_inv in H as (dot & c & -> & Hdot & Hc).
    apply matches_unit in Hat as ->. apply matches_unit in Hdot as ->.
    apply matches_plus_class in Ha, Hb, Hc.
    exists a, b, c. auto.
  - intros (a & b & c & -> & Ha & Hb & Hc).
    apply matches_plus_class in Ha, Hb, Hc.
    constructor; [assumption|].
    constructor; [apply matches_unit; reflexivity|].
    constructor; [assumption|].
    constructor; [apply matches_unit; reflexivity | assumption].
Qed.

(** X24.  The email pattern of the login form, matched over UTF-16 code
    units with the white space class of ECMAScript, accepts exactly the
    strings local@domain.tld whose three parts are non-empty and contain
    neither white space nor [@] (full stops are allowed inside a part). *)
Theorem email_pattern_language s :
  test email_pattern s = true <->
  exists local domain tld,
    s = local ++ [at_sign] ++ domain ++ [full_stop] ++ tld /\
    word local /\ word domain /\ word tld.
Proof.
  rewrite test_matches. apply email_pattern_matches.
Qed.

(** X25.  [validateForm] returns true exactly when the email has the shape
    local@domain.tld (parts non-empty, free of white space and of [@]) and
    the password has at least six UTF-16 code units. *)
Theorem validateForm_accepts_iff email password :
  snd (validateForm email password) = true <->
  (exists local domain tld,
      email = local ++ [at_sign] ++ domain ++ [full_stop] ++ tld /\
      word local /\ word domain /\ word tld) /\
  6 <= length password.
Proof.
  rewrite <- email_pattern_matches, <- test_matches.
  unfold validateForm, LoginFormController.no_keys, newErrors.
  cbn [fst snd email_error password_error].
  destruct email as [|c email]; cbn [falsy].
  { split; [discriminate | intros [H _]; discriminate]. }
  destruct (test email_pattern (c :: email)); cbn [negb].
  2: { split; [discriminate | intros [H _]; discriminate]. }
  destruct password as [|d password]; cbn [falsy].
  { split; [discriminate | intros [_ H]; cbn in H; lia]. }
  destruct (Nat.ltb_spec (length (d :: password)) 6).
  - split; [discriminate | intros [_ Hlen]; lia].
  - split; [intros _; split; [reflexivity | lia] | reflexivity].
Qed.

(** Five katakana are five code units: too short a password, as in the
    browser; an ideographic space (U+3000) in the email is white space; a
    letter of the Latin-1 range is an ordinary character. *)
Example validateForm_beyond_ascii :
  snd (validateForm (units "a@b.com")
         [0x30D1; 0x30B9; 0x30EF; 0x30FC; 0x30C9]%N) = false /\
  snd (validateForm (units "a@b.com")
         [0x30D1; 0x30B9; 0x30EF; 0x30FC; 0x30C9; 0x30C9]%N) = true /\
  snd (validateForm ([97; 0x3000; 98] ++ units "@b.com")%N (units "123456"))
    = false /\
  snd (validateForm ([0xE0] ++ units "@b.com")%N (units "123456")) = true.
Proof. repeat split. Qed.

(** [LoginFormController] agrees with this module on every Rocq string read
    one character per code unit. *)
Lemma same_nullable r s : same_regex r s -> Regex.nullable r = nullable s.
Proof. induction 1; cbn; congruence. Qed.

Lemma same_deriv c r s :
  same_regex r s -> same_regex (Regex.deriv c r) (deriv (N_of_ascii c) s).
Proof.
  induction 1 as [ | | p q Hpq | r1 r2 s1 s2 H1 IH1 H2 IH2
                 | r1 r2 s1 s2 H1 IH1 H2 IH2 | r s H IH ]; cbn.
  - constructor.
  - constructor.
  - rewrite <- Hpq. destruct (p c); constructor.
  - rewrite <- (same_nullable _ _ H1).
    destruct (Regex.nullable r1); repeat constructor; assumption.
  - constructor; assumption.
  - repeat constructor; assumption.
Qed.

Lemma same_test s :
  forall r r', same_regex r r' -> Regex.test r s = test r' (units s).
Proof.
  induction s as [|c s IH]; intros r r' H; cbn.
  - apply same_nullable, H.
  - apply IH, same_deriv, H.
Qed.

Lemma same_is_space c : Regex.is_space c = is_space (N_of_ascii c).
Proof.
  destruct c as [[] [] [] [] [] [] [] []]; reflexivity.
Qed.

Lemma same_email_pattern : same_regex Regex.email_pattern email_pattern.
Proof.
  assert (Hword : forall c, Regex.not_space_at c = not_space_at (N_of_ascii c)).
  { intros c. unfold Regex.not_space_at, not_space_at.
    rewrite same_is_space. f_equal. f_equal.
    destruct c as [[] [] [] [] [] [] [] []]; reflexivity. }
  assert (Hchar : forall a c, Ascii.eqb a c = N.eqb (N_of_ascii a) (N_of_ascii c)).
  { intros a c. destruct (Ascii.eqb_spec a c) as [->|Hne].
    - symmetry. apply N.eqb_refl.
    - symmetry. apply N.eqb_neq. intros E. apply Hne.
      rewrite <- (ascii_N_embedding a), <- (ascii_N_embedding c). now rewrite E. }
  unfold Regex.email_pattern, email_pattern, Regex.Plus, Plus.
  repeat constructor; auto; intros c; apply Hchar.
Qed.

Lemma length_units s : length (units s) = String.length s.
Proof. unfold units. induction s; cbn; congruence. Qed.

Lemma newErrors_units email password :
  newErrors (units email) (units password)
    = LoginFormController.newErrors
        {| form_email := email; form_password := password |}.
Proof.
  unfold newErrors, LoginFormController.newErrors, Js.falsy.
  cbn [form_email form_password].
  rewrite <- (same_test email _ _ same_email_pattern), length_units.
  destruct email, password; reflexivity.
Qed.

End CodeUnitValidation.

Section FormProperties.

Import LoginFormController FormInput.
Local Open Scope list_scope.

Variable backend : Backend.

(** X26.  [handleChange] stores the value in the named field and leaves the other
    field alone; the error of the named field no longer shows and the error
    of the other field is kept. *)
Theorem handleChange_updates_field field value w :
  let other := match field with
               | field_email => field_password
               | field_password => field_email
               end in
  let read f v := match f with
                  | field_email => form_email v
                  | field_password => form_password v
                  end in
  let f' := form_state (snd (handleChange field value w)) in
  fst (handleChange field value w) = Ok tt /\
  read field (values f') = value /\
  read other (values f') = read other (values (form_state w)) /\
  truthy (error_at field (errors f')) = false /\
  error_at other (errors f') = error_at other (errors (form_state w)) /\
  isSubmitting f' = isSubmitting (form_state w).
Proof.
  unfold handleChange, setValues, setErrors. unfold_monad.
  destruct field; cbn.
  - destruct (truthy (email_error (errors (form_state w)))) eqn:Ht; cbn;
      repeat split; assumption.
  - destruct (truthy (password_error (errors (form_state w)))) eqn:Ht; cbn;
      repeat split; assumption.
Qed.

(** X27.  [handleSubmit] never throws, whatever [login] and [onSuccess] do, and a
    form that was not submitting is not submitting when it returns. *)
Theorem handleSubmit_settles withOnSuccess w :
  fst (submit backend withOnSuccess w) = Ok tt /\
  (isSubmitting (form_state w) = false ->
   isSubmitting (form_state (snd (submit backend withOnSuccess w))) = false).
Proof.
  unfold submit, handleSubmit, validateForm, setIsSubmitting, setErrors,
    Caller.login, Caller.onSuccess.
  unfold_monad. cbn.
  destruct (no_keys (newErrors (values (form_state w)))); cbn.
  - destruct (backend _ (history w) (invoke_login _ _)) as [r|e]; cbn;
      [ destruct (success r); cbn;
        [ destruct withOnSuccess; cbn;
          [ destruct (backend unit _ invoke_onSuccess) as [[]|?]; cbn | ] | ] | ];
      split; auto.
  - split; auto.
Qed.

(** X28.  What [handleSubmit] calls: [login] once with the values of the form
    when validation passes and not at all otherwise; [onSuccess] once when
    it was given and [login] returned a success envelope, and not at all in
    every other case. *)
Theorem handleSubmit_calls withOnSuccess w :
  let v := values (form_state w) in
  let attempt := invoke_login (form_email v) (form_password v) in
  let valid := no_keys (newErrors v) in
  let logged_in :=
    match backend _ (history w) attempt with
    | Ok r => success r
    | Throw _ => false
    end in
  exists calls,
    history (snd (submit backend withOnSuccess w)) = history w ++ calls /\
    calls = (if valid then [Ev attempt] else [])
              ++ (if valid && withOnSuccess && logged_in
                  then [Ev invoke_onSuccess] else []).
Proof.
  cbv zeta.
  unfold submit, handleSubmit, validateForm, setIsSubmitting, setErrors,
    Caller.login, Caller.onSuccess.
  unfold_monad. cbn.
  destruct (no_keys (newErrors (values (form_state w)))); cbn.
  - destruct withOnSuccess;
      (destruct (backend _ (history w) (invoke_login _ _)) as [r|e]; cbn;
       [ destruct (success r); cbn | ]);
      try (destruct (backend unit _ invoke_onSuccess); cbn);
      eexists; rewrite <- ?app_assoc; cbn; split; reflexivity.
  - exists []. rewrite app_nil_r. split; reflexivity.
Qed.

(** X30.  The form wired to the context's [login]: a form that fails validation
    reaches neither the backend nor the session state; a valid one never
    throws, stops submitting, and its first call across the boundary is the
    sign-in with the values of the form. *)
Theorem handleSubmit_with_context_login w :
  let v := values (form_state w) in
  let run := handleSubmit (AuthProvider.login backend) None w in
  fst run = Ok tt /\
  if no_keys (newErrors v)
  then isSubmitting (form_state (snd run)) = false /\
       exists rest,
         history (snd run)
           = history w ++
             Ev (signInWithEmailAndPassword (form_email v) (form_password v))
             :: rest
  else history (snd run) = history w /\
       auth_state (snd run) = auth_state w.
Proof.
  cbv zeta.
  unfold handleSubmit, validateForm, setIsSubmitting, setErrors.
  unfold_monad. cbn.
  destruct (no_keys (newErrors (values (form_state w)))); cbn;
    [ | repeat split ].
  unfold AuthProvider.login, AuthService.loginUser,
    AuthProvider.setLoading, AuthProvider.setError.
  unfold_monad.
  backend_cases;
    repeat match goal with
           | |- context [if success ?r then _ else _] => destruct (success r); cbn
           end;
    (split; [reflexivity|]); (split; [reflexivity|]);
    eexists; rewrite <- ?app_assoc; cbn; reflexivity.
Qed.

End FormProperties.

(** ** Concrete runs of the properties that have preconditions *)

Section Witnesses.

Import Sample Scenario.
Local Open Scope list_scope.

Lemma loginUser_success_inversion_witness :
  exists cred userData tok,
    healthy _ [Ev (signInWithEmailAndPassword "alice@example.com" "secret")]
      (getDoc_users (uid (cred_user cred))) = Ok (Some userData) /\
    is_active userData = true /\
    healthy _
      [Ev (signInWithEmailAndPassword "alice@example.com" "secret");
       Ev (getDoc_users (uid (cred_user cred)));
       Ev (updateDoc_users (uid (cred_user cred))
             (patch_last_login ServerTimestamp))]
      (getIdToken (cred_user cred)) = Ok tok /\
    Some alice_session = Some {| profile := userData; token := Some tok |}.
Proof.
  destruct (loginUser_success_inversion healthy "alice@example.com" "secret"
              empty_world
              {| success := true; data := Some alice_session; error := None;
                 response_message := Some "ログインに成功しました" |}
              eq_refl eq_refl)
    as (cred & userData & tok & _ & read & active & _ & issued & same & _).
  exists cred, userData, tok.
  repeat split; try assumption.
  exact (f_equal data same).
Defined.

Lemma loginUser_sign_in_rejected_witness :
  exists r,
    fst (loginUser offline "alice@example.com" "secret" empty_world) = Ok r /\
    success r = false /\
    option_map code (error r) = Some "unavailable".
Proof.
  destruct (loginUser_sign_in_rejected offline "alice@example.com" "secret"
              empty_world unavailable eq_refl)
    as (r & returned & failed & _ & coded & _).
  exists r. repeat split; assumption.
Defined.

Lemma loginUser_missing_record_witness :
  fst (loginUser unregistered "alice@example.com" "secret" empty_world)
    = Ok (failure "login-failed" "ユーザー情報が見つかりません") /\
  history (snd (loginUser unregistered "alice@example.com" "secret" empty_world))
    = [Ev (signInWithEmailAndPassword "alice@example.com" "secret");
       Ev (getDoc_users "u-alice")].
Proof.
  apply (loginUser_missing_record unregistered "alice@example.com" "secret"
           empty_world {| cred_user := alice_principal |}); reflexivity.
Defined.

Lemma createUser_success_inversion_witness :
  role dana_session = admin /\
  exists cred,
    healthy _ [Ev (getDoc_companies "acme")]
      (createUserWithEmailAndPassword "carol@example.com" "password123")
      = Ok cred /\
    history (snd (createUser healthy carol_request dana_session empty_world))
      = [Ev (getDoc_companies "acme");
         Ev (createUserWithEmailAndPassword "carol@example.com" "password123");
         Ev (updateProfile (cred_user cred) "Carol");
         Ev (setDoc_users (uid (cred_user cred))
               {| id := uid (cred_user cred); email := "carol@example.com";
                  name := "Carol"; company_id := "acme"; role := user;
                  created_at := ServerTimestamp; last_login := None;
                  is_active := true |})].
Proof.
  destruct (createUser_success_inversion healthy carol_request dana_session
              empty_world
              {| success := true;
                 data := Some {| id := "u-new"; email := "carol@example.com";
                                 name := "Carol"; company_id := "acme";
                                 role := user; created_at := ServerTimestamp;
                                 last_login := None; is_active := true |};
                 error := None;
                 response_message := Some "ユーザーを作成しました" |}
              eq_refl eq_refl)
    as (is_admin & c & cred & _ & created & _ & _ & _ & made).
  split; [exact is_admin|]. exists cred. split; [exact created | exact made].
Defined.

Lemma createUser_missing_company_witness :
  fst (createUser unregistered carol_request dana_session empty_world)
    = Ok (failure "user-creation-failed" "指定された会社が見つかりません") /\
  history (snd (createUser unregistered carol_request dana_session empty_world))
    = [Ev (getDoc_companies "acme")].
Proof.
  apply (createUser_missing_company unregistered carol_request dana_session
           empty_world); reflexivity.
Defined.

Lemma createUser_credential_rejected_witness :
  exists r,
    fst (createUser tenant_fetch_once carol_request dana_session empty_world)
      = Ok r /\
    success r = false /\
    history (snd (createUser tenant_fetch_once carol_request dana_session
                    empty_world))
      = [Ev (getDoc_companies "acme");
         Ev (createUserWithEmailAndPassword "carol@example.com" "password123")].
Proof.
  destruct (createUser_credential_rejected tenant_fetch_once carol_request
              dana_session empty_world acme unavailable
              eq_refl eq_refl eq_refl)
    as (r & returned & failed & made & _).
  exists r. repeat split; assumption.
Defined.

Lemma createUser_record_write_fails_witness :
  exists r,
    fst (createUser write_refused carol_request dana_session empty_world)
      = Ok r /\
    success r = false /\
    option_map code (error r) = Some "unavailable".
Proof.
  destruct (createUser_record_write_fails write_refused carol_request
              dana_session empty_world acme
              {| cred_user := {| uid := "u-carol" |} |} unavailable
              eq_refl eq_refl eq_refl eq_refl eq_refl)
    as (r & returned & failed & coded & _).
  exists r. repeat split; assumption.
Defined.

Lemma getCompanyUsers_same_tenant_witness :
  fst (getCompanyUsers healthy "acme" alice_session empty_world)
    = Ok {| success := true; data := Some [alice]; error := None;
            response_message := None |} /\
  history (snd (getCompanyUsers healthy "acme" alice_session empty_world))
    = [Ev (getDocs_users_where_company_id "acme")].
Proof.
  apply (getCompanyUsers_same_tenant healthy "acme" alice_session empty_world
           [alice]); reflexivity.
Defined.

Lemma toggleUserStatus_cross_tenant_witness :
  fst (toggleUserStatus healthy "u-alice" false bob_session empty_world)
    = Ok (failure "status-toggle-failed" "異なる会社のユーザーは変更できません") /\
  history (snd (toggleUserStatus healthy "u-alice" false bob_session
                  empty_world))
    = [Ev (getDoc_users "u-alice")].
Proof.
  apply (toggleUserStatus_cross_tenant healthy "u-alice" false bob_session
           empty_world alice); [reflexivity | reflexivity | discriminate].
Defined.

Lemma toggleUserStatus_requires_admin_witness :
  exists r,
    fst (toggleUserStatus healthy "u-dana" false alice_session empty_world)
      = Ok r /\
    denies_authorization r /\
    history (snd (toggleUserStatus healthy "u-dana" false alice_session
                    empty_world)) = [].
Proof.
  apply (toggleUserStatus_requires_admin healthy "u-dana" false alice_session
           empty_world); reflexivity.
Defined.

Lemma onAuthStateChange_delivers_record_witness :
  exists rest,
    history (snd (onAuthStateChange healthy (Caller.callback healthy)
                    (Some alice_principal) empty_world))
      = [Ev (getDoc_users "u-alice"); Ev (getIdToken alice_principal)]
          ++ Ev (invoke_callback (Some alice_session)) :: rest /\
    rest = [].
Proof.
  destruct (onAuthStateChange_delivers_record healthy alice_principal
              empty_world alice "token-1" eq_refl eq_refl)
    as (rest & made & returns & _).
  exists rest. split; [exact made | exact (returns eq_refl)].
Defined.

Lemma onAuthStateChange_token_failure_witness :
  history (snd (onAuthStateChange inactive_account
                  (Caller.callback inactive_account)
                  (Some alice_principal) empty_world))
    = [Ev (getDoc_users "u-alice"); Ev (getIdToken alice_principal);
       Ev (invoke_callback None)].
Proof.
  apply (onAuthStateChange_token_failure inactive_account alice_principal
           empty_world alice_inactive unavailable); reflexivity.
Defined.

Lemma deliver_one_callback_each_witness :
  count is_callback
    (history (deliver healthy (Caller.callback healthy)
                [Some alice_principal; None; Some alice_principal]
                empty_world))
    = 3.
Proof.
  apply (deliver_one_callback_each healthy
           [Some alice_principal; None; Some alice_principal] empty_world).
  intros h u. reflexivity.
Defined.

End Witnesses.
